(** * Leader election over etcd: a model of [src/election.ts]

    The [Election] class of the etcd3 client is a promise-based state
    machine: every public method sends requests to the store through
    [this.session] and continues in [.then] callbacks.  The embedding keeps
    that shape.  A [World] holds the store, the session's open watchers, the
    requests the session has sent, the instance's fields, the events emitted
    and one program counter per method call in flight; [step] runs one
    callback, one answer of the store, or one move of another client. *)

From Stdlib Require Import ZArith List String Ascii Bool Lia HexString Sorted.
Import ListNotations.

Local Open Scope Z_scope.
Local Open Scope string_scope.

(** ** bignumber.js: the part [getKey] uses *)

Module BigNumber.

(** [new BigNumber(n).toString(16)]: lowercase digits, no padding, no
    [0x] prefix, a leading minus sign for negative values.  A lease id
    reaches [getKey] as the decimal string of an integer; the embedding
    carries the integer it denotes. *)
Definition toString16 (n : Z) : string :=
  match n with
  | Z0 => "0"
  | Zpos p => HexString.Raw.of_pos p ""
  | Zneg p => String "-" (HexString.Raw.of_pos p "")
  end.

(** Reading a hexadecimal numeral back (the inverse the round-trip
    property of the key codec is stated with). *)
Definition parse16 (s : string) : Z :=
  match s with
  | String c t =>
      if Ascii.eqb c "-"
      then Z.opp (Z.of_N (HexString.Raw.to_N t 0%N))
      else Z.of_N (HexString.Raw.to_N s 0%N)
  | EmptyString => 0
  end.

End BigNumber.

(** ** The store behind [this.session] *)

Module Etcd.

(** Modelled from the spec: the key-value store that [./namespace] and
    [./rpc] give access to lives outside [election.ts].  A record of the store
    has a key, a value, the revision it was created at and the lease
    it is bound to. *)
Record KeyValue := mkKeyValue {
  key : string;
  value : string;
  create_revision : Z;
  lease : option Z
}.

Record ResponseHeader := mkHeader { revision : Z }.

(** Modelled from the spec: the store is the list of surviving records,
    the revision counter, and the delete events committed so far (key and
    revision of the delete, newest first), which is what a watch replays
    from its start revision. *)
Record Store := mkStore {
  kvs : list KeyValue;
  store_revision : Z;
  deleted : list (string * Z)
}.

Definition has_key (k : string) (kv : KeyValue) : bool :=
  String.eqb (key kv) k.

Definition lookup (k : string) (s : Store) : option KeyValue :=
  find (has_key k) (kvs s).

(** Modelled from the spec: the field [Create] of a comparison is the
    creation revision of the key, 0 for a key that is absent. *)
Definition create_revision_of (k : string) (s : Store) : Z :=
  match lookup k s with
  | Some kv => create_revision kv
  | None => 0
  end.

(** Modelled from the spec: a put takes the next revision; it creates the
    record there, or replaces value and lease of the record that exists
    and leaves its key and creation revision alone. *)
Definition put (k v : string) (l : option Z) (s : Store) : Store :=
  let r := store_revision s + 1 in
  match lookup k s with
  | Some _ =>
      mkStore
        (map (fun kv => if has_key k kv
                        then mkKeyValue k v (create_revision kv) l
                        else kv) (kvs s))
        r (deleted s)
  | None => mkStore (kvs s ++ [mkKeyValue k v r l]) r (deleted s)
  end.

(** Modelled from the spec: deleting a key that exists takes the next
    revision and leaves a delete event; deleting an absent key changes
    nothing. *)
Definition delete (k : string) (s : Store) : Store :=
  match lookup k s with
  | Some _ =>
      let r := store_revision s + 1 in
      mkStore (filter (fun kv => negb (has_key k kv)) (kvs s))
              r ((k, r) :: deleted s)
  | None => s
  end.

(** Modelled from the spec: the branch operations of a conditional
    commit, [put(key, value, lease?)], [get(key)] and [delete(key)]. *)
Inductive Op :=
| OpPut (k v : string) (l : option Z)
| OpGet (k : string)
| OpDelete (k : string).

Inductive OpResponse :=
| PutResponse
| RangeResponseOf (rows : list KeyValue)
| DeleteResponse (n : nat).

(** Modelled from the spec: [session.if(key, 'Create', '==', v)
    .then(op).else(op')], the only comparison the election builds, and
    the response [{succeeded, header, responses}]. *)
Record Txn := mkTxn {
  if_key : string;
  if_create_eq : Z;
  then_op : option Op;
  else_op : option Op
}.

Record TxnResponse := mkTxnResponse {
  succeeded : bool;
  header : ResponseHeader;
  responses : list OpResponse
}.

Definition apply_op (o : Op) (s : Store) : Store * OpResponse :=
  match o with
  | OpPut k v l => (put k v l s, PutResponse)
  | OpGet k =>
      (s, RangeResponseOf (match lookup k s with
                           | Some kv => [kv]
                           | None => []
                           end))
  | OpDelete k =>
      (delete k s, DeleteResponse (match lookup k s with
                                   | Some _ => 1
                                   | None => 0
                                   end))
  end.

(** Modelled from the spec: the commit evaluates the condition on the
    current store, runs the chosen branch atomically and answers with
    the revision of the store after it. *)
Definition commit (t : Txn) (s : Store) : Store * TxnResponse :=
  let ok := Z.eqb (create_revision_of (if_key t) s) (if_create_eq t) in
  match (if ok then then_op t else else_op t) with
  | Some o =>
      let (s', r) := apply_op o s in
      (s', mkTxnResponse ok (mkHeader (store_revision s')) [r])
  | None => (s, mkTxnResponse ok (mkHeader (store_revision s)) [])
  end.

(** Modelled from the spec: range queries,
    [getAll().prefix(p).maxCreateRevision(m).sort("Create", o)], answered
    with [{kvs, header}]. *)
Inductive SortOrder := Ascend | Descend.

Record RangeRequest := mkRangeRequest {
  range_prefix : string;
  max_create_revision : option Z;
  sort_order : SortOrder
}.

Record RangeResponse := mkRangeResponse {
  rows : list KeyValue;
  range_header : ResponseHeader
}.

Definition before (o : SortOrder) (a b : KeyValue) : bool :=
  match o with
  | Ascend => Z.leb (create_revision a) (create_revision b)
  | Descend => Z.leb (create_revision b) (create_revision a)
  end.

Fixpoint insert_sorted (o : SortOrder) (x : KeyValue) (l : list KeyValue)
  : list KeyValue :=
  match l with
  | [] => [x]
  | y :: t => if before o x y then x :: l else y :: insert_sorted o x t
  end.

Definition sort_by_create (o : SortOrder) (l : list KeyValue) : list KeyValue :=
  fold_right (insert_sorted o) [] l.

Definition in_range (q : RangeRequest) (kv : KeyValue) : bool :=
  String.prefix (range_prefix q) (key kv)
  && match max_create_revision q with
     | Some m => Z.leb (create_revision kv) m
     | None => true
     end.

(** Modelled from the spec: the rows under the prefix, filtered by the
    bound on the creation revision, in the order asked for, with the
    revision the store had when it answered. *)
Definition range (q : RangeRequest) (s : Store) : RangeResponse :=
  mkRangeResponse (sort_by_create (sort_order q) (filter (in_range q) (kvs s)))
                  (mkHeader (store_revision s)).

(** Modelled from the spec: a watch on one key from a start revision.
    [owner] is the call of the election that opened it. *)
Record Watcher := mkWatcher {
  owner : nat;
  watch_key : string;
  start_revision : Z
}.

(** Modelled from the spec: the watcher has a delete event to deliver
    when the key was deleted at or after the start revision. *)
Definition delete_event (x : Watcher) (s : Store) : bool :=
  existsb (fun e => String.eqb (fst e) (watch_key x)
                    && Z.leb (start_revision x) (snd e))
          (deleted s).

(** Modelled from the spec: releasing a subscription removes it from the
    session's open watchers.  Nothing in [election.ts] calls it. *)
Fixpoint cancel (n : nat) (ws : list Watcher) : list Watcher :=
  match ws, n with
  | [], _ => []
  | _ :: t, O => t
  | x :: t, S n' => x :: cancel n' t
  end.

End Etcd.

Import Etcd.

(** ** The [Election] class *)

(** [leaderLeaseId: string | null], and [undefined] until the first
    campaign: the constructor does not initialise it. *)
Inductive LeaseField :=
| LeaseUndefined
| LeaseNull
| LeaseOf (leaseId : Z).

(** The fields of an instance.  [leaderKey] and [leaderRevision] are
    [None] while they are [undefined]. *)
Record Election := mkElection {
  keyPrefix : string;
  timeout : Z;
  leaderKey : option string;
  leaderRevision : option Z;
  leaderLeaseId : LeaseField
}.

(** [constructor(session, prefix, timeout = 5)] *)
Definition newElection (prefix : string) (timeout : option Z) : Election :=
  mkElection prefix (match timeout with Some t => t | None => 5 end)
             None None LeaseUndefined.

(** [private static readonly prefix = 'election'] *)
Definition prefix : string := "election".

Definition getPrefix (e : Election) : string :=
  prefix ++ "/" ++ keyPrefix e ++ "/".

Definition getKey (e : Election) (leaseId : Z) : string :=
  getPrefix e ++ BigNumber.toString16 leaseId.

(** The part of a campaign key after the election's prefix. *)
Fixpoint skip (n : nat) (s : string) : string :=
  match n, s with
  | S n', String _ t => skip n' t
  | _, _ => s
  end.

Definition hexSegment (e : Election) (k : string) : string :=
  skip (String.length (getPrefix e)) k.

(** JavaScript truthiness of the fields the methods test. *)
Definition falsy (l : LeaseField) : bool :=
  match l with
  | LeaseOf _ => false
  | _ => true
  end.

(** [this.leaderKey != ""]: [undefined != ""] holds in JavaScript. *)
Definition leaderKey_not_empty (e : Election) : bool :=
  match leaderKey e with
  | Some k => negb (String.eqb k "")
  | None => true
  end.

Inductive Error :=
| EtcdElectionNoLeaderError
| EtcdElectionNotLeaderError
| TypeError.

Inductive Event := elected | resigned.

(** What a call of a public method came to. *)
Inductive Outcome :=
| Returned                      (* returned [undefined] at once *)
| Threw (e : Error)             (* threw before any promise was made *)
| Resolved (v : option string)  (* the promise resolved *)
| Rejected (e : Error).         (* the promise rejected *)

(** A request sent through [this.session]. *)
Inductive Request :=
| LeaseGrant (ttl : Z)
| Commit (t : Txn)
| Range (q : RangeRequest)
| Watch (k : string) (start : Z).

(** Where a call stands: one constructor per request in flight and per
    [.then] callback waiting to run. *)
Inductive Pc :=
(* campaign *)
| CampaignGrant (value : string)
| CampaignCommit (key value : string) (leaseId : Z) (t : Txn)
| CampaignThen (key value : string) (leaseId : Z) (res : TxnResponse)
(* waitDeletes and waitDelete, on behalf of campaign *)
| WaitDeletesExec (maxCreateRevision : Z) (q : RangeRequest)
| WaitDeletesThen (maxCreateRevision : Z) (res : RangeResponse)
| WaitDeleteCreate (maxCreateRevision : Z) (key : string) (revision : Z)
| WaitDeleteListen (maxCreateRevision : Z) (watcher : nat)
| WaitDeletesResolved (h : ResponseHeader)
| CampaignDone
(* proclaim *)
| ProclaimCommit (t : Txn)
| ProclaimThen (res : TxnResponse)
| ProclaimDone (o : Outcome)
(* resign *)
| ResignCommit (t : Txn)
| ResignThen (res : TxnResponse)
| ResignDone (o : Outcome)
(* leader *)
| LeaderExec (q : RangeRequest)
| LeaderThen (res : RangeResponse)
| LeaderDone (o : Outcome).

Record World := mkWorld {
  store : Store;
  watchers : list Watcher;          (* open subscriptions of the session *)
  requests : list (nat * Request);  (* sent so far, with the call that sent it *)
  election : Election;
  emitted : list Event;
  tasks : list Pc
}.

Definition newWorld (e : Election) (s : Store) : World :=
  mkWorld s [] [] e [] [].

Fixpoint set_nth {A : Type} (n : nat) (x : A) (l : list A) : list A :=
  match l, n with
  | [], _ => []
  | _ :: t, O => x :: t
  | y :: t, S n' => y :: set_nth n' x t
  end.

Definition task (i : nat) (w : World) : option Pc := nth_error (tasks w) i.

Definition set_task (i : nat) (pc : Pc) (w : World) : World :=
  mkWorld (store w) (watchers w) (requests w) (election w) (emitted w)
          (set_nth i pc (tasks w)).

Definition spawn (pc : Pc) (w : World) : World :=
  mkWorld (store w) (watchers w) (requests w) (election w) (emitted w)
          (tasks w ++ [pc]).

Definition send (i : nat) (r : Request) (w : World) : World :=
  mkWorld (store w) (watchers w) (requests w ++ [(i, r)]) (election w)
          (emitted w) (tasks w).

Definition set_store (s : Store) (w : World) : World :=
  mkWorld s (watchers w) (requests w) (election w) (emitted w) (tasks w).

Definition set_election (e : Election) (w : World) : World :=
  mkWorld (store w) (watchers w) (requests w) e (emitted w) (tasks w).

Definition emit (ev : Event) (w : World) : World :=
  mkWorld (store w) (watchers w) (requests w) (election w)
          (emitted w ++ [ev]) (tasks w).

Definition open_watcher (x : Watcher) (w : World) : World :=
  mkWorld (store w) (watchers w ++ [x]) (requests w) (election w)
          (emitted w) (tasks w).

(** ** The methods, callback by callback

    [i] is the index of the call in [tasks].  A function named after a
    method is its synchronous part; [_then] functions are the [.then]
    callbacks; the requests they send are answered by [resume]. *)

(** [waitDelete(key, revision)], lines 46-49: the watch request goes out. *)
Definition waitDelete (i : nat) (maxCreateRevision : Z) (key : string)
    (revision : Z) (w : World) : World :=
  set_task i (WaitDeleteCreate maxCreateRevision key revision)
           (send i (Watch key revision) w).

(** Lines 51-57: the subscription is open and listens for ['delete'].  No
    line of the class closes it. *)
Definition waitDelete_then (i : nat) (maxCreateRevision : Z) (key : string)
    (revision : Z) (w : World) : World :=
  set_task i (WaitDeleteListen maxCreateRevision (List.length (watchers w)))
           (open_watcher (mkWatcher i key revision) w).

Definition waitDeletes_query (e : Election) (maxCreateRevision : Z)
  : RangeRequest :=
  mkRangeRequest (getPrefix e) (Some maxCreateRevision) Ascend.

(** [waitDeletes(maxCreateRevision)], lines 65-70. *)
Definition waitDeletes (i : nat) (maxCreateRevision : Z) (w : World) : World :=
  let q := waitDeletes_query (election w) maxCreateRevision in
  set_task i (WaitDeletesExec maxCreateRevision q) (send i (Range q) w).

(** Lines 72-80. *)
Definition waitDeletes_then (i : nat) (maxCreateRevision : Z)
    (res : RangeResponse) (w : World) : World :=
  match rows res with
  | [] => set_task i (WaitDeletesResolved (range_header res)) w
  | kv :: _ =>
      waitDelete i maxCreateRevision (key kv) (revision (range_header res)) w
  end.

(** Line 55 resolves once the delete event arrives; line 79 then calls
    [waitDeletes] again.  Without the event the call stays where it is. *)
Definition waitDelete_deleted (i : nat) (maxCreateRevision : Z) (n : nat)
    (w : World) : World :=
  match nth_error (watchers w) n with
  | Some x =>
      if delete_event x (store w) then waitDeletes i maxCreateRevision w else w
  | None => w
  end.

(** [campaign(value)], lines 87-93 and 126. *)
Definition campaign (value : string) (w : World) : World :=
  send (List.length (tasks w)) (LeaseGrant (timeout (election w)))
       (spawn (CampaignGrant value) w).

Definition campaign_txn (key value : string) (leaseId : Z) : Txn :=
  mkTxn key 0 (Some (OpPut key value (Some leaseId))) (Some (OpGet key)).

(** Lines 94-101. *)
Definition campaign_granted (i : nat) (value : string) (leaseId : Z)
    (w : World) : World :=
  let key := getKey (election w) leaseId in
  let t := campaign_txn key value leaseId in
  set_task i (CampaignCommit key value leaseId t) (send i (Commit t) w).

(** Lines 103-116. *)
Definition campaign_then (i : nat) (key : string) (leaseId : Z)
    (res : TxnResponse) (w : World) : World :=
  let e := election w in
  let rev := revision (header res) in
  waitDeletes i (rev - 1)
    (set_election
       (mkElection (keyPrefix e) (timeout e) (Some key) (Some rev)
                   (LeaseOf leaseId)) w).

(** Lines 117-122. *)
Definition campaign_elected (i : nat) (w : World) : World :=
  set_task i CampaignDone
           (if leaderKey_not_empty (election w) then emit elected w else w).

Definition proclaim_txn (key : string) (rev : Z) (value : string)
    (leaseId : Z) : Txn :=
  mkTxn key rev (Some (OpPut key value (Some leaseId))) None.

(** [proclaim(value)], lines 133-137.  With the lease id set and the
    revision [undefined], [this.leaderRevision.toString()] would be a
    [TypeError]; no run reaches that state. *)
Definition proclaim (value : string) (w : World) : World :=
  let e := election w in
  let i := List.length (tasks w) in
  match leaderLeaseId e with
  | LeaseOf leaseId =>
      match leaderKey e, leaderRevision e with
      | Some key, Some rev =>
          let t := proclaim_txn key rev value leaseId in
          send i (Commit t) (spawn (ProclaimCommit t) w)
      | _, _ => spawn (ProclaimDone (Threw TypeError)) w
      end
  | _ => spawn (ProclaimDone (Threw EtcdElectionNotLeaderError)) w
  end.

(** Lines 139-144. *)
Definition proclaim_then (i : nat) (res : TxnResponse) (w : World) : World :=
  let e := election w in
  if succeeded res
  then set_task i (ProclaimDone (Resolved None)) w
  else set_task i (ProclaimDone (Rejected EtcdElectionNotLeaderError))
         (set_election
            (mkElection (keyPrefix e) (timeout e) (Some "")
                        (leaderRevision e) (leaderLeaseId e)) w).

Definition resign_txn (key : string) (rev : Z) : Txn :=
  mkTxn key rev (Some (OpDelete key)) None.

(** [resign()], lines 152-157. *)
Definition resign (w : World) : World :=
  let e := election w in
  let i := List.length (tasks w) in
  match leaderLeaseId e with
  | LeaseOf _ =>
      match leaderKey e, leaderRevision e with
      | Some key, Some rev =>
          let t := resign_txn key rev in
          send i (Commit t) (spawn (ResignCommit t) w)
      | _, _ => spawn (ResignDone (Threw TypeError)) w
      end
  | _ => spawn (ResignDone Returned) w
  end.

(** Lines 159-164: the event is emitted first, then the fields are
    cleared; [leaderRevision] is left as it is. *)
Definition resign_then (i : nat) (res : TxnResponse) (w : World) : World :=
  let e := election w in
  set_task i (ResignDone (Resolved None))
    (set_election
       (mkElection (keyPrefix e) (timeout e) (Some "") (leaderRevision e)
                   LeaseNull)
       (emit resigned w)).

Definition leader_query (e : Election) : RangeRequest :=
  mkRangeRequest (getPrefix e) None Descend.

(** [leader()], lines 171-175. *)
Definition leader (w : World) : World :=
  let q := leader_query (election w) in
  send (List.length (tasks w)) (Range q) (spawn (LeaderExec q) w).

(** Lines 177-182.  Line 179 throws the error class itself. *)
Definition leader_then (i : nat) (res : RangeResponse) (w : World) : World :=
  match rows res with
  | [] => set_task i (LeaderDone (Rejected EtcdElectionNoLeaderError)) w
  | kv :: _ => set_task i (LeaderDone (Resolved (Some (value kv)))) w
  end.

(** ** Scheduling *)

(** The store answers a commit in flight. *)
Definition answer_commit (t : Txn) (k : TxnResponse -> Pc) (i : nat)
    (w : World) : World :=
  let (s', res) := commit t (store w) in
  set_task i (k res) (set_store s' w).

(** Call [i] takes its next step: the store answers its request, or its
    next callback runs. *)
Definition resume (i : nat) (w : World) : World :=
  match task i w with
  | Some (CampaignCommit key value leaseId t) =>
      answer_commit t (CampaignThen key value leaseId) i w
  | Some (CampaignThen key _ leaseId res) => campaign_then i key leaseId res w
  | Some (WaitDeletesExec m q) =>
      set_task i (WaitDeletesThen m (range q (store w))) w
  | Some (WaitDeletesThen m res) => waitDeletes_then i m res w
  | Some (WaitDeleteCreate m key rev) => waitDelete_then i m key rev w
  | Some (WaitDeleteListen m n) => waitDelete_deleted i m n w
  | Some (WaitDeletesResolved _) => campaign_elected i w
  | Some (ProclaimCommit t) => answer_commit t ProclaimThen i w
  | Some (ProclaimThen res) => proclaim_then i res w
  | Some (ResignCommit t) => answer_commit t ResignThen i w
  | Some (ResignThen res) => resign_then i res w
  | Some (LeaderExec q) => set_task i (LeaderThen (range q (store w))) w
  | Some (LeaderThen res) => leader_then i res w
  | _ => w
  end.

(** [lease.grant()] of call [i] resolves with a lease id. *)
Definition granted (i : nat) (leaseId : Z) (w : World) : World :=
  match task i w with
  | Some (CampaignGrant value) => campaign_granted i value leaseId w
  | _ => w
  end.

Inductive Action :=
(* the public methods *)
| CallCampaign (value : string)
| CallProclaim (value : string)
| CallResign
| CallLeader
(* the session answers and callbacks run *)
| Granted (i : nat) (leaseId : Z)
| Resume (i : nat)
(* other clients of the store, lease expiry included *)
| OtherPut (k v : string) (l : option Z)
| OtherDelete (k : string).

Definition step (a : Action) (w : World) : World :=
  match a with
  | CallCampaign value => campaign value w
  | CallProclaim value => proclaim value w
  | CallResign => resign w
  | CallLeader => leader w
  | Granted i leaseId => granted i leaseId w
  | Resume i => resume i w
  | OtherPut k v l => set_store (put k v l (store w)) w
  | OtherDelete k => set_store (delete k (store w)) w
  end.

Fixpoint exec (acts : list Action) (w : World) : World :=
  match acts with
  | [] => w
  | a :: rest => exec rest (step a w)
  end.

(** Every world a run goes through, the first one included. *)
Fixpoint trace (acts : list Action) (w : World) : list World :=
  w :: match acts with
       | [] => []
       | a :: rest => trace rest (step a w)
       end.

(** A fresh etcd store is at revision 1. *)
Definition emptyStore : Store := mkStore [] 1 [].

(** The scenario of the spec: A (lease 1, value x) and B (lease 2, value
    y) campaign on "svc".  Only B's instance is followed; A is another
    client of the store. *)
Definition scenario : list Action :=
  [ OtherPut "election/svc/1" "x" (Some 1);
    CallCampaign "y"; Granted 0 2; Resume 0; Resume 0; Resume 0; Resume 0;
    Resume 0; Resume 0;
    OtherDelete "election/svc/1";
    Resume 0; Resume 0; Resume 0; Resume 0 ].

(** ** Notions the properties are stated with *)

(** The numeral starts with a minus sign. *)
Definition is_minus (s : string) : bool :=
  match s with
  | String c _ => Ascii.eqb c "-"
  | EmptyString => false
  end.

(** The action is addressed to call [i]. *)
Definition addresses (a : Action) (i : nat) : bool :=
  match a with
  | Granted j _ | Resume j => Nat.eqb j i
  | _ => false
  end.

(** What the history of a run says about a call that entered
    [waitDeletes b]: an answer it holds was given by the store in some
    world of the history, and it is resolved only with the header of an
    empty answer. *)
Definition wait_inv (e0 : Election) (b : Z) (hist : list World) (pc : Pc)
  : Prop :=
  let q := waitDeletes_query e0 b in
  match pc with
  | WaitDeletesExec m q' => m = b /\ q' = q
  | WaitDeletesThen m res =>
      m = b /\ exists w, In w hist /\ res = range q (store w)
  | WaitDeleteCreate m _ _ => m = b
  | WaitDeleteListen m _ => m = b
  | WaitDeletesResolved h =>
      exists w, In w hist /\ rows (range q (store w)) = []
                /\ h = range_header (range q (store w))
  | CampaignDone => True
  | _ => False
  end.

(** Two predecessors under "svc" (leases 1 and 3), then a campaign with
    lease 2 up to the first query of [waitDeletes]. *)
Definition two_ahead : World :=
  exec [ OtherPut "election/svc/1" "x" (Some 1);
         OtherPut "election/svc/3" "z" (Some 3);
         CallCampaign "y"; Granted 0 2; Resume 0; Resume 0 ]
       (newWorld (newElection "svc" None) emptyStore).

(** The predecessors go one at a time; the call re-queries after each. *)
Definition one_at_a_time : list Action :=
  [ Resume 0; Resume 0; Resume 0; Resume 0;
    OtherDelete "election/svc/1";
    Resume 0; Resume 0; Resume 0; Resume 0; Resume 0;
    OtherDelete "election/svc/3";
    Resume 0; Resume 0; Resume 0 ].

Definition is_commit (r : Request) : bool :=
  match r with
  | Commit _ => true
  | _ => false
  end.

(** The conditional commits call [i] has sent. *)
Definition commits_by (i : nat) (w : World) : nat :=
  List.length
    (filter (fun p => Nat.eqb (fst p) i && is_commit (snd p)) (requests w)).

Definition others (i : nat) (acts : list Action) : bool :=
  forallb (fun a => negb (addresses a i)) acts.

(** Past its commit, a campaign only queries and watches. *)
Definition past_commit (pc : Pc) : bool :=
  match pc with
  | WaitDeletesExec _ _ | WaitDeletesThen _ _ | WaitDeleteCreate _ _ _
  | WaitDeleteListen _ _ | WaitDeletesResolved _ | CampaignDone => true
  | _ => false
  end.

(** A's key is in the store; B has called [campaign] and waits for its
    lease. *)
Definition granting : World :=
  exec [ OtherPut "election/svc/1" "x" (Some 1); CallCampaign "y" ]
       (newWorld (newElection "svc" None) emptyStore).

(** B's campaign from the grant to its end, with a query of the leader
    and a third candidate coming in between. *)
Definition campaign_run : World :=
  exec one_at_a_time
    (step (Resume 0)
       (exec [OtherPut "election/svc/3" "z" (Some 3)]
          (step (Resume 0) (exec [CallLeader] (step (Granted 0 2) granting))))).

(** B is elected after A's key is gone (the scenario of the spec). *)
Definition leading : World :=
  exec scenario (newWorld (newElection "svc" None) emptyStore).

(** The call is inside [waitDeletes], or its result waits for line 117. *)
Definition waiting (pc : Pc) : bool :=
  match pc with
  | WaitDeletesExec _ _ | WaitDeletesThen _ _ | WaitDeleteCreate _ _ _
  | WaitDeleteListen _ _ | WaitDeletesResolved _ => true
  | _ => false
  end.

(** Steps of call [i] and moves of other clients only. *)
Definition quiet (i : nat) (a : Action) : bool :=
  match a with
  | Resume k => Nat.eqb k i
  | OtherPut _ _ _ | OtherDelete _ => true
  | _ => false
  end.

(** B waits behind A and has called [resign]; the store has answered the
    commit of the resign. *)
Definition resigning_while_waiting : World :=
  exec [ OtherPut "election/svc/1" "x" (Some 1);
         CallCampaign "y"; Granted 0 2; Resume 0; Resume 0; Resume 0;
         Resume 0; Resume 0;
         CallResign; Resume 1 ]
       (newWorld (newElection "svc" None) emptyStore).

Definition key_present (e : Election) : bool :=
  match leaderKey e with
  | Some k => negb (String.eqb k "")
  | None => false
  end.

Definition revision_present (e : Election) : bool :=
  match leaderRevision e with
  | Some _ => true
  | None => false
  end.

Definition lease_present (e : Election) : bool := negb (falsy (leaderLeaseId e)).

(** All three present or all three absent. *)
Definition all_or_none (e : Election) : bool :=
  (key_present e && revision_present e && lease_present e)
  || (negb (key_present e) && negb (revision_present e)
      && negb (lease_present e)).

(** What does hold of the three fields. *)
Definition fields_inv (e : Election) : Prop :=
  (key_present e = true -> lease_present e = true)
  /\ (lease_present e = true ->
      revision_present e = true /\ leaderKey e <> None).

(** A subscription whose delete event has not come belongs to a call that
    is listening on it. *)
Definition listening (w : World) : Prop :=
  forall n x,
    nth_error (watchers w) n = Some x ->
    delete_event x (store w) = false ->
    exists m, task (owner x) w = Some (WaitDeleteListen m n).

(** What the spec asks of a world: no more than one subscription open, and
    none open whose delete event has been delivered. *)
Definition at_most_one_open (w : World) : bool :=
  Nat.leb (List.length (watchers w)) 1.

Definition released_once_observed (w : World) : bool :=
  forallb (fun x => negb (delete_event x (store w))) (watchers w).

(** The campaign of [two_ahead] after both predecessors are gone and
    "elected" has fired. *)
Definition elected_after_two : World :=
  step (Resume 0) (exec one_at_a_time two_ahead).

(** Creation revisions are positive and not ahead of the store. *)
Definition store_wf (s : Store) : Prop :=
  0 <= store_revision s
  /\ forall kv, In kv (kvs s) ->
                0 < create_revision kv <= store_revision s.

(** The key of lease 2 is put by another client before the campaign
    under lease 2 commits; in [reentrant] another write came after it, in
    [reentrant_last] it is the last write. *)
Definition reentrant : World :=
  exec [ CallCampaign "y";
         OtherPut "election/svc/2" "old" (Some 2);
         OtherPut "election/svc/1" "x" (Some 1);
         Granted 0 2 ]
       (newWorld (newElection "svc" None) emptyStore).

Definition reentrant_last : World :=
  exec [ CallCampaign "y";
         OtherPut "election/svc/2" "old" (Some 2);
         Granted 0 2 ]
       (newWorld (newElection "svc" None) emptyStore).

(** The order a sorted answer is in. *)
Definition ordered (o : SortOrder) (a b : KeyValue) : Prop :=
  before o a b = true.

(** ** Notions the further properties are stated with *)

(** The key is the empty string or lies under the prefix. *)
Definition own_key (p k : string) : Prop :=
  k = "" \/ String.prefix p k = true.

Definition op_key (o : Op) : string :=
  match o with
  | OpPut k _ _ | OpGet k | OpDelete k => k
  end.

Definition branch_on (k : string) (o : option Op) : Prop :=
  match o with
  | Some op => op_key op = k
  | None => True
  end.

(** The request does not reach outside the prefix [p]: a commit compares
    and touches one key, empty or under [p]; a range query is over [p]; a
    watch is on a key under [p]. *)
Definition request_within (p : string) (r : Request) : Prop :=
  match r with
  | LeaseGrant _ => True
  | Commit t =>
      own_key p (if_key t)
      /\ branch_on (if_key t) (then_op t)
      /\ branch_on (if_key t) (else_op t)
  | Range q => range_prefix q = p
  | Watch k _ => String.prefix p k = true
  end.

(** What a call in flight holds that a later request is built from. *)
Definition pc_within (p : string) (pc : Pc) : Prop :=
  match pc with
  | CampaignCommit key _ _ _ | CampaignThen key _ _ _ => own_key p key
  | WaitDeletesExec _ q => range_prefix q = p
  | WaitDeletesThen _ res =>
      forall row, In row (rows res) -> String.prefix p (key row) = true
  | _ => True
  end.

Definition within (p : string) (w : World) : Prop :=
  getPrefix (election w) = p
  /\ (forall k, leaderKey (election w) = Some k -> own_key p k)
  /\ Forall (fun r => request_within p (snd r)) (requests w)
  /\ Forall (pc_within p) (tasks w).

(** Counting events and finished calls. *)
Definition is_elected (ev : Event) : bool :=
  match ev with
  | elected => true
  | resigned => false
  end.

Definition is_resigned (ev : Event) : bool :=
  match ev with
  | resigned => true
  | elected => false
  end.

Definition campaign_done (pc : Pc) : bool :=
  match pc with
  | CampaignDone => true
  | _ => false
  end.

Definition resign_resolved (pc : Pc) : bool :=
  match pc with
  | ResignDone (Resolved _) => true
  | _ => false
  end.

Definition count {A : Type} (f : A -> bool) (l : list A) : nat :=
  List.length (filter f l).

(** Only a key of another application is in the store; B has called
    [campaign]. *)
Definition alone : World :=
  exec [ OtherPut "other/a" "v" None; CallCampaign "y" ]
       (newWorld (newElection "svc" None) emptyStore).

(** B listens on the key of A, its only predecessor. *)
Definition behind_one : World :=
  exec [ OtherPut "election/svc/1" "x" (Some 1);
         CallCampaign "y"; Granted 0 2; Resume 0; Resume 0; Resume 0;
         Resume 0; Resume 0 ]
       (newWorld (newElection "svc" None) emptyStore).

(** The campaign of [two_ahead] listening on its first watch. *)
Definition listening_first : World :=
  exec [Resume 0; Resume 0; Resume 0] two_ahead.

(** The leader of the scenario has lost its key, as by a lease expiry. *)
Definition deposed : World :=
  exec [OtherDelete "election/svc/2"] leading.




(** * Properties *)

(** ** The key codec *)

Section KeyCodec.

Import BigNumber.

Lemma of_pos_not_minus :
  forall (p : positive) (rest : string),
    is_minus rest = false ->
    is_minus (HexString.Raw.of_pos p rest) = false.
Proof.
  fix IH 1. intros p rest Hrest.
  do 4 (try destruct p as [p|p|]); cbn; try reflexivity;
    apply IH; reflexivity.
Qed.

Lemma parse16_toString16 (n : Z) : parse16 (toString16 n) = n.
Proof.
  destruct n as [|p|p]; [reflexivity| |].
  - pose proof (of_pos_not_minus p "" eq_refl) as Hm.
    pose proof (HexString.Raw.to_N_of_pos p "" 0%N) as Hr.
    unfold toString16, parse16.
    destruct (HexString.Raw.of_pos p "") as [|c t] eqn:E.
    + cbn in Hr. discriminate.
    + cbn in Hm. rewrite Hm, Hr. reflexivity.
  - unfold toString16, parse16.
    rewrite (HexString.Raw.to_N_of_pos p "" 0%N). reflexivity.
Qed.

Lemma append_assoc (a b c : string) : (a ++ b) ++ c = a ++ (b ++ c).
Proof. induction a as [|x a IH]; cbn; [reflexivity | now rewrite IH]. Qed.

Lemma skip_append (a b : string) : skip (String.length a) (a ++ b) = b.
Proof. induction a as [|c a IH]; [destruct b|]; cbn; auto. Qed.

Lemma hexSegment_getKey (e : Election) (leaseId : Z) :
  hexSegment e (getKey e leaseId) = toString16 leaseId.
Proof. unfold hexSegment, getKey. apply skip_append. Qed.

Lemma getKey_inj (e : Election) (a b : Z) :
  getKey e a = getKey e b -> a = b.
Proof.
  intros H.
  rewrite <- (parse16_toString16 a), <- (parse16_toString16 b).
  rewrite <- (hexSegment_getKey e a), <- (hexSegment_getKey e b).
  now rewrite H.
Qed.

End KeyCodec.

Example toString16_255 : BigNumber.toString16 255 = "ff".
Proof. reflexivity. Qed.

Example getKey_svc_4096 :
  getKey (newElection "svc" None) 4096 = "election/svc/1000".
Proof. reflexivity. Qed.

(** C8.  For a fixed election, [getKey] writes the lease id in lowercase
    unpadded hexadecimal after ["election/" ++ keyPrefix ++ "/"]; equal
    lease ids give equal keys, non-negative lease ids with equal keys are
    equal, and the part of the key after the prefix reads back as the
    lease id. *)
Theorem getKey_injective_roundtrip :
  forall (e : Election) (a b : Z),
    0 <= a -> 0 <= b ->
    getKey e a = "election/" ++ keyPrefix e ++ "/" ++ BigNumber.toString16 a
    /\ (a = b -> getKey e a = getKey e b)
    /\ (getKey e a = getKey e b -> a = b)
    /\ BigNumber.parse16 (hexSegment e (getKey e a)) = a.
Proof.
  intros e a b _ _.
  split; [unfold getKey, getPrefix; cbn; now rewrite append_assoc|].
  split; [intros ->; reflexivity|].
  split; [apply getKey_inj|].
  rewrite hexSegment_getKey. apply parse16_toString16.
Qed.

Lemma getKey_injective_roundtrip_witness :
  getKey (newElection "svc" None) 255 = "election/svc/ff"
  /\ (255 = 4096 -> getKey (newElection "svc" None) 255
                    = getKey (newElection "svc" None) 4096)
  /\ (getKey (newElection "svc" None) 255
      = getKey (newElection "svc" None) 4096 -> 255 = 4096)
  /\ BigNumber.parse16
       (hexSegment (newElection "svc" None)
                   (getKey (newElection "svc" None) 255)) = 255.
Proof.
  apply (getKey_injective_roundtrip (newElection "svc" None) 255 4096); lia.
Defined.

(** ** Calls and their program counters *)

Arguments getPrefix : simpl never.
Arguments getKey : simpl never.

Section Tasks.

Context {A : Type}.

Lemma length_set_nth (n : nat) (x : A) (l : list A) :
  List.length (set_nth n x l) = List.length l.
Proof.
  revert n; induction l as [|y l IH]; intros [|n]; cbn; auto.
Qed.

Lemma nth_error_set_nth_eq (n : nat) (x : A) (l : list A) :
  (n < List.length l)%nat -> nth_error (set_nth n x l) n = Some x.
Proof.
  revert n; induction l as [|y l IH]; intros [|n] H; cbn in *;
    try lia; auto.
  apply IH. lia.
Qed.

Lemma nth_error_set_nth_ne (n m : nat) (x : A) (l : list A) :
  n <> m -> nth_error (set_nth n x l) m = nth_error l m.
Proof.
  revert n m; induction l as [|y l IH]; intros [|n] [|m] H; cbn;
    try congruence; auto.
Qed.

Lemma nth_error_lt (n : nat) (x : A) (l : list A) :
  nth_error l n = Some x -> (n < List.length l)%nat.
Proof. intros H. apply nth_error_Some. congruence. Qed.

Lemma nth_error_snoc_old (n : nat) (x y : A) (l : list A) :
  nth_error l n = Some x -> nth_error (l ++ [y]) n = Some x.
Proof.
  intros H. rewrite nth_error_app1; [assumption|].
  eapply nth_error_lt; eassumption.
Qed.

Lemma nth_error_snoc_new (y : A) (l : list A) :
  nth_error (l ++ [y]) (List.length l) = Some y.
Proof.
  rewrite nth_error_app2 by lia. now rewrite Nat.sub_diag.
Qed.

End Tasks.

Ltac unfold_methods :=
  repeat progress unfold step, campaign, proclaim, resign, leader, granted, resume,
    answer_commit, campaign_granted, campaign_then, campaign_elected,
    waitDeletes, waitDeletes_then, waitDelete, waitDelete_then,
    waitDelete_deleted, proclaim_then, resign_then, leader_then,
    set_task, spawn, send, set_store, set_election, emit, open_watcher,
    task in *.

Ltac break_match :=
  match goal with
  | |- context [match ?x with _ => _ end] => destruct x eqn:?
  | |- context [let (_, _) := ?x in _] => destruct x eqn:?
  end.

Ltac on_tasks :=
  cbn [tasks store watchers requests election emitted
       keyPrefix timeout leaderKey leaderRevision leaderLeaseId] in *.

(** A step leaves the calls it is not addressed to where they are. *)
Lemma step_frame (a : Action) (w : World) (i : nat) (pc : Pc) :
  task i w = Some pc -> addresses a i = false ->
  task i (step a w) = Some pc.
Proof.
  intros Hi Ha.
  destruct a; cbn in Ha; try apply Nat.eqb_neq in Ha;
    unfold_methods; repeat (break_match; on_tasks);
    on_tasks; rewrite ?nth_error_set_nth_ne by assumption;
    auto using nth_error_snoc_old.
Qed.

Lemma step_keyPrefix (a : Action) (w : World) :
  keyPrefix (election (step a w)) = keyPrefix (election w).
Proof.
  destruct a; unfold_methods; repeat (break_match; on_tasks); reflexivity.
Qed.

Lemma exec_keyPrefix (acts : list Action) (w : World) :
  keyPrefix (election (exec acts w)) = keyPrefix (election w).
Proof.
  revert w; induction acts as [|a acts IH]; intros w; cbn; [reflexivity|].
  now rewrite IH, step_keyPrefix.
Qed.

Lemma exec_app (xs ys : list Action) (w : World) :
  exec (xs ++ ys) w = exec ys (exec xs w).
Proof. revert w; induction xs as [|a xs IH]; intros w; cbn; auto. Qed.

(** ** Range queries *)

Lemma insert_sorted_In (o : SortOrder) (x y : KeyValue) (l : list KeyValue) :
  In y (insert_sorted o x l) <-> y = x \/ In y l.
Proof.
  induction l as [|z l IH]; cbn.
  - intuition congruence.
  - destruct (before o x z); cbn; rewrite ?IH; intuition congruence.
Qed.

Lemma sort_by_create_In (o : SortOrder) (y : KeyValue) (l : list KeyValue) :
  In y (sort_by_create o l) <-> In y l.
Proof.
  induction l as [|x l IH]; cbn; [tauto|].
  rewrite insert_sorted_In, IH. intuition congruence.
Qed.

Lemma sort_by_create_nil (o : SortOrder) (l : list KeyValue) :
  sort_by_create o l = [] <-> l = [].
Proof.
  split; [|intros ->; reflexivity].
  destruct l as [|x l]; [reflexivity|]. intros H.
  assert (Hin : In x (sort_by_create o (x :: l)))
    by (apply sort_by_create_In; now left).
  rewrite H in Hin. destruct Hin.
Qed.

Lemma filter_nil {A : Type} (f : A -> bool) (l : list A) :
  filter f l = [] <-> forall x, In x l -> f x = false.
Proof.
  induction l as [|y l IH]; cbn; [tauto|].
  destruct (f y) eqn:E; split.
  - discriminate.
  - intros H. specialize (H y (or_introl eq_refl)). congruence.
  - intros H x [<-|Hx]; [assumption|]. now apply IH.
  - intros H. apply IH. auto.
Qed.

(** The query of [waitDeletes] is empty exactly when every record under
    the prefix was created after the bound. *)
Lemma waitDeletes_query_empty (e : Election) (b : Z) (s : Store) :
  rows (range (waitDeletes_query e b) s) = [] <->
  (forall kv, In kv (kvs s) ->
              String.prefix (getPrefix e) (key kv) = true ->
              b < create_revision kv).
Proof.
  unfold range; cbn [rows]. rewrite sort_by_create_nil, filter_nil.
  unfold in_range, waitDeletes_query; cbn.
  split; intros H kv Hin.
  - intros Hp. specialize (H kv Hin). rewrite Hp in H. cbn in H.
    apply Z.leb_gt in H. exact H.
  - destruct (String.prefix (getPrefix e) (key kv)) eqn:Hp; [|reflexivity].
    cbn. apply Z.leb_gt. auto.
Qed.

(** ** waitDeletes *)

Lemma trace_snoc (acts : list Action) (a : Action) (w : World) :
  trace (acts ++ [a]) w = (trace acts w ++ [exec (acts ++ [a]) w])%list.
Proof.
  revert w; induction acts as [|x acts IH]; intros w; cbn; [reflexivity|].
  now rewrite IH.
Qed.

Lemma trace_last (acts : list Action) (w : World) :
  In (exec acts w) (trace acts w).
Proof.
  revert w; induction acts as [|x acts IH]; intros w; cbn; auto.
Qed.

Section WaitDeletes.

Variables (e0 : Election) (b : Z).

Local Abbreviation q := (waitDeletes_query e0 b).

Lemma wait_inv_mono (hist more : list World) (pc : Pc) :
  wait_inv e0 b hist pc -> wait_inv e0 b (hist ++ more)%list pc.
Proof.
  destruct pc; cbn; auto.
  - intros [Hm [w [Hw Hr]]]. split; [assumption|].
    exists w. split; [apply in_or_app; now left | assumption].
  - intros [w [Hw Hr]]. exists w.
    split; [apply in_or_app; now left | assumption].
Qed.

Lemma wait_inv_resume (hist : list World) (w : World) (i : nat) (pc : Pc) :
  keyPrefix (election w) = keyPrefix e0 ->
  In w hist ->
  task i w = Some pc -> wait_inv e0 b hist pc ->
  exists pc', task i (resume i w) = Some pc' /\ wait_inv e0 b hist pc'.
Proof.
  intros Hk Hin Hi Hinv.
  assert (Hlt : (i < List.length (tasks w))%nat)
    by (eapply nth_error_lt; exact Hi).
  assert (Hq : waitDeletes_query (election w) b = q)
    by (unfold q, waitDeletes_query, getPrefix; now rewrite Hk).
  unfold resume. rewrite Hi.
  destruct pc; cbn in Hinv; try contradiction.
  - (* WaitDeletesExec *)
    destruct Hinv as [-> ->].
    eexists. unfold_methods; on_tasks.
    rewrite nth_error_set_nth_eq by assumption.
    split; [reflexivity|]. cbn. split; [reflexivity|]. eauto.
  - (* WaitDeletesThen *)
    destruct Hinv as [-> [w' [Hw' ->]]].
    unfold waitDeletes_then.
    destruct (rows (range q (store w'))) eqn:Hrows.
    + eexists. unfold_methods; on_tasks.
      rewrite nth_error_set_nth_eq by assumption.
      split; [reflexivity|]. cbn. eauto.
    + eexists. unfold_methods; on_tasks.
      rewrite nth_error_set_nth_eq by assumption.
      split; [reflexivity|]. reflexivity.
  - (* WaitDeleteCreate *)
    subst. eexists. unfold_methods; on_tasks.
    rewrite nth_error_set_nth_eq by assumption.
    split; reflexivity.
  - (* WaitDeleteListen *)
    subst. unfold waitDelete_deleted.
    destruct (nth_error (watchers w) watcher) as [x|];
      [destruct (delete_event x (store w))|].
    + eexists. unfold_methods; on_tasks.
      rewrite nth_error_set_nth_eq by assumption.
      split; [reflexivity|]. cbn. now rewrite Hq.
    + exists (WaitDeleteListen b watcher). now split.
    + exists (WaitDeleteListen b watcher). now split.
  - (* WaitDeletesResolved *)
    eexists. unfold_methods; on_tasks.
    break_match; on_tasks;
      rewrite nth_error_set_nth_eq by assumption;
      (split; [reflexivity|exact I]).
  - (* CampaignDone *)
    exists CampaignDone. now split.
Qed.

Lemma wait_inv_step (hist : list World) (w : World) (a : Action) (i : nat)
    (pc : Pc) :
  keyPrefix (election w) = keyPrefix e0 ->
  In w hist ->
  task i w = Some pc -> wait_inv e0 b hist pc ->
  exists pc', task i (step a w) = Some pc' /\ wait_inv e0 b hist pc'.
Proof.
  intros Hk Hin Hi Hinv.
  destruct (addresses a i) eqn:Ha.
  - destruct a; cbn in Ha; try discriminate;
      apply Nat.eqb_eq in Ha; subst.
    + (* Granted: the call is past the grant *)
      exists pc. split; [|assumption].
      cbn. unfold granted. rewrite Hi.
      destruct pc; cbn in Hinv; try contradiction; assumption.
    + now apply (wait_inv_resume hist w i pc).
  - exists pc. split; [|assumption]. now apply step_frame.
Qed.

Lemma wait_inv_exec (acts : list Action) (w0 : World) (i : nat) :
  keyPrefix (election w0) = keyPrefix e0 ->
  task i w0 = Some (WaitDeletesExec b q) ->
  exists pc, task i (exec acts w0) = Some pc
             /\ wait_inv e0 b (trace acts w0) pc.
Proof.
  intros Hk H0.
  induction acts as [|a acts IH] using rev_ind.
  - exists (WaitDeletesExec b q). cbn. auto.
  - destruct IH as [pc [Hpc Hinv]].
    rewrite trace_snoc, exec_app. cbn [exec].
    destruct (wait_inv_step (trace acts w0) (exec acts w0) a i pc)
      as [pc' [Hpc' Hinv']]; auto using trace_last.
    + now rewrite exec_keyPrefix.
    + exists pc'. split; [assumption|]. now apply wait_inv_mono.
Qed.

End WaitDeletes.

Example two_ahead_waits :
  task 0 two_ahead
  = Some (WaitDeletesExec 3 (waitDeletes_query (election two_ahead) 3)).
Proof. reflexivity. Qed.

Example one_at_a_time_resolves :
  task 0 (exec one_at_a_time two_ahead)
  = Some (WaitDeletesResolved (mkHeader 6)).
Proof. reflexivity. Qed.

(** ** campaign *)

Lemma commits_snoc (i j : nat) (r : Request) (l : list (nat * Request)) :
  List.length
    (filter (fun p => Nat.eqb (fst p) i && is_commit (snd p)) (l ++ [(j, r)]))
  = (List.length
       (filter (fun p => Nat.eqb (fst p) i && is_commit (snd p)) l)
     + (if Nat.eqb j i && is_commit r then 1 else 0))%nat.
Proof.
  rewrite filter_app, length_app. cbn.
  destruct (Nat.eqb j i && is_commit r); reflexivity.
Qed.

Ltac neq_tag :=
  match goal with
  | |- context [Nat.eqb ?j ?i] =>
      replace (Nat.eqb j i) with false by (symmetry; apply Nat.eqb_neq; lia)
  end.

Lemma commits_step_frame (a : Action) (w : World) (i : nat) (pc : Pc) :
  task i w = Some pc -> addresses a i = false ->
  commits_by i (step a w) = commits_by i w.
Proof.
  intros Hi Ha. pose proof (nth_error_lt _ _ _ Hi) as Hlt.
  unfold commits_by.
  destruct a; cbn in Ha; try apply Nat.eqb_neq in Ha;
    unfold_methods; repeat (break_match; on_tasks); on_tasks;
    rewrite ?commits_snoc; try neq_tag; cbn; lia.
Qed.

Lemma exec_frame (acts : list Action) (w : World) (i : nat) (pc : Pc) :
  task i w = Some pc -> others i acts = true ->
  task i (exec acts w) = Some pc
  /\ commits_by i (exec acts w) = commits_by i w.
Proof.
  revert w; induction acts as [|a acts IH]; intros w Hi Ho; cbn; [auto|].
  cbn in Ho. apply andb_prop in Ho as [Ha Ho].
  apply negb_true_iff in Ha.
  destruct (IH (step a w)) as [Ht Hc]; auto using step_frame.
  split; [assumption|].
  rewrite Hc. eapply commits_step_frame; eassumption.
Qed.

Lemma past_commit_step (a : Action) (w : World) (i : nat) (pc : Pc) :
  task i w = Some pc -> past_commit pc = true ->
  exists pc', task i (step a w) = Some pc' /\ past_commit pc' = true
              /\ commits_by i (step a w) = commits_by i w.
Proof.
  intros Hi Hp. pose proof (nth_error_lt _ _ _ Hi) as Hlt.
  destruct (addresses a i) eqn:Ha.
  - destruct a; cbn in Ha; try discriminate;
      apply Nat.eqb_eq in Ha; subst; cbn [step];
      unfold granted, resume; rewrite Hi;
      destruct pc; try discriminate; try (exists CampaignDone; now auto);
      unfold commits_by; unfold_methods;
      repeat (break_match; on_tasks); on_tasks;
      rewrite ?commits_snoc, ?nth_error_set_nth_eq by assumption;
      cbn [is_commit]; rewrite ?andb_false_r, ?Nat.add_0_r;
      eauto.
  - exists pc. eauto using step_frame, commits_step_frame.
Qed.

Lemma past_commit_exec (acts : list Action) (w : World) (i : nat) (pc : Pc) :
  task i w = Some pc -> past_commit pc = true ->
  exists pc', task i (exec acts w) = Some pc' /\ past_commit pc' = true
              /\ commits_by i (exec acts w) = commits_by i w.
Proof.
  revert w pc; induction acts as [|a acts IH]; intros w pc Hi Hp; cbn.
  - eauto.
  - destruct (past_commit_step a w i pc Hi Hp) as [pc1 [H1 [Hp1 Hc1]]].
    destruct (IH _ _ H1 Hp1) as [pc2 [H2 [Hp2 Hc2]]].
    exists pc2. repeat split; congruence.
Qed.

Lemma resume_at (w : World) (i : nat) (pc : Pc) :
  task i w = Some pc ->
  (i < List.length (tasks w))%nat
  /\ forall w', tasks w' = tasks w -> forall pc',
       task i (set_task i pc' w') = Some pc'.
Proof.
  intros Hi. pose proof (nth_error_lt _ _ _ Hi) as Hlt.
  split; [assumption|]. intros w' Hw' pc'.
  unfold task, set_task; on_tasks. rewrite Hw'.
  now apply nth_error_set_nth_eq.
Qed.

(** C2.  From the grant of its lease on, a campaign sends one conditional
    commit: on [key = getKey leaseId], condition creation revision = 0,
    with a put of [value] under the lease as the success branch and a get
    of the key as the failure branch.  The store evaluates it on the
    state it has then.  Whatever the branch, the callback records
    [leaderKey = key], [leaderRevision =] the revision of the response
    header and [leaderLeaseId = leaseId], and enters [waitDeletes] with
    that revision minus one.  No later step of the call sends another
    commit.  Steps of other calls and other clients may come between. *)
Theorem campaign_commits_once_and_records :
  forall (w : World) (i : nat) (value : string) (leaseId : Z)
         (between1 between2 after : list Action),
    task i w = Some (CampaignGrant value) ->
    others i between1 = true ->
    others i between2 = true ->
    let key := getKey (election w) leaseId in
    let t := mkTxn key 0 (Some (OpPut key value (Some leaseId)))
                   (Some (OpGet key)) in
    let w1 := step (Granted i leaseId) w in
    let w1' := exec between1 w1 in
    let w2 := step (Resume i) w1' in
    let res := snd (commit t (store w1')) in
    let w2' := exec between2 w2 in
    let w3 := step (Resume i) w2' in
    let bound := revision (header res) - 1 in
    (* the commit goes out *)
    requests w1 = (requests w ++ [(i, Commit t)])%list
    /\ task i w1 = Some (CampaignCommit key value leaseId t)
    (* the store evaluates it *)
    /\ task i w2 = Some (CampaignThen key value leaseId res)
    /\ succeeded res = Z.eqb (create_revision_of key (store w1')) 0
    /\ (succeeded res = true ->
        store w2 = put key value (Some leaseId) (store w1')
        /\ revision (header res) = store_revision (store w1') + 1)
    /\ (succeeded res = false ->
        store w2 = store w1'
        /\ revision (header res) = store_revision (store w1')
        /\ responses res
           = [RangeResponseOf (match lookup key (store w1') with
                               | Some kv => [kv]
                               | None => []
                               end)])
    (* the callback records the triple and waits *)
    /\ leaderKey (election w3) = Some key
    /\ leaderRevision (election w3) = Some (revision (header res))
    /\ leaderLeaseId (election w3) = LeaseOf leaseId
    /\ task i w3
       = Some (WaitDeletesExec bound (waitDeletes_query (election w3) bound))
    /\ requests w3
       = (requests w2'
          ++ [(i, Range (waitDeletes_query (election w3) bound))])%list
    (* one commit in all *)
    /\ commits_by i (exec after w3) = (commits_by i w + 1)%nat.
Proof.
  intros w i value leaseId between1 between2 after Hi Ho1 Ho2
         key t w1 w1' w2 res w2' w3 bound.
  destruct (resume_at w i _ Hi) as [Hlt Hset].
  assert (Hw1 : w1 = set_task i (CampaignCommit key value leaseId t)
                              (send i (Commit t) w)).
  { unfold w1; cbn [step]. unfold granted. rewrite Hi. reflexivity. }
  assert (Ht1 : task i w1 = Some (CampaignCommit key value leaseId t)).
  { rewrite Hw1. now apply Hset. }
  assert (Hc1 : commits_by i w1 = (commits_by i w + 1)%nat).
  { rewrite Hw1. unfold commits_by, set_task, send; on_tasks.
    rewrite commits_snoc, Nat.eqb_refl. reflexivity. }
  destruct (exec_frame between1 w1 i _ Ht1 Ho1) as [Ht1' Hc1'].
  fold w1' in Ht1', Hc1'.
  destruct (resume_at w1' i _ Ht1') as [Hlt1 Hset1].
  assert (Hw2 : w2 = set_task i (CampaignThen key value leaseId res)
                              (set_store (fst (commit t (store w1'))) w1')).
  { unfold w2; cbn [step]. unfold resume. rewrite Ht1'.
    unfold answer_commit, res. now destruct (commit t (store w1')). }
  assert (Ht2 : task i w2 = Some (CampaignThen key value leaseId res)).
  { rewrite Hw2. now apply Hset1. }
  assert (Hc2 : commits_by i w2 = commits_by i w1').
  { rewrite Hw2. reflexivity. }
  destruct (exec_frame between2 w2 i _ Ht2 Ho2) as [Ht2' Hc2'].
  fold w2' in Ht2', Hc2'.
  destruct (resume_at w2' i _ Ht2') as [Hlt2 Hset2].
  assert (Hw3 : w3 = campaign_then i key leaseId res w2').
  { unfold w3; cbn [step]. unfold resume. now rewrite Ht2'. }
  assert (Ht3 : task i w3 = Some (WaitDeletesExec bound
                                    (waitDeletes_query (election w3) bound))).
  { rewrite Hw3. unfold campaign_then, waitDeletes.
    unfold task, set_task, send, set_election; on_tasks.
    now rewrite nth_error_set_nth_eq. }
  assert (Hc3 : commits_by i w3 = commits_by i w2').
  { rewrite Hw3. unfold campaign_then, waitDeletes, commits_by.
    unfold set_task, send, set_election; on_tasks.
    rewrite commits_snoc. cbn [is_commit]. rewrite andb_false_r. lia. }
  assert (Hstore2 : store w2 = fst (commit t (store w1')))
    by (rewrite Hw2; reflexivity).
  split; [rewrite Hw1; reflexivity|].
  split; [assumption|].
  split; [assumption|].
  split; [|split; [|split]].
  - unfold res, commit. cbn [if_key if_create_eq t].
    repeat (break_match; cbn [snd succeeded]); reflexivity.
  - intros Hs. rewrite Hstore2. revert Hs. unfold res, commit, t.
    cbn [if_key if_create_eq then_op else_op].
    destruct (Z.eqb (create_revision_of key (store w1')) 0);
      cbn; [|discriminate].
    intros _. split; [reflexivity|].
    unfold put. now destruct (lookup key (store w1')).
  - intros Hs. rewrite Hstore2. revert Hs. unfold res, commit, t.
    cbn [if_key if_create_eq then_op else_op].
    destruct (Z.eqb (create_revision_of key (store w1')) 0);
      cbn; [discriminate|].
    auto.
  - rewrite Hw3 at 1 2 3.
    split; [reflexivity|]. split; [reflexivity|]. split; [reflexivity|].
    split; [assumption|].
    split; [rewrite Hw3; reflexivity|].
    destruct (past_commit_exec after w3 i _ Ht3 eq_refl)
      as [pc' [_ [_ Hc]]].
    rewrite Hc, Hc3, Hc2', Hc2, Hc1', Hc1. reflexivity.
Qed.

Lemma campaign_commits_once_and_records_witness :
  task 0 granting = Some (CampaignGrant "y")
  /\ requests (step (Granted 0 2) granting)
     = (requests granting
        ++ [(0%nat, Commit (mkTxn "election/svc/2" 0
                              (Some (OpPut "election/svc/2" "y" (Some 2)))
                              (Some (OpGet "election/svc/2"))))])%list
  /\ commits_by 0 campaign_run = 1%nat.
Proof.
  split; [reflexivity|].
  pose proof (campaign_commits_once_and_records
                granting 0 "y" 2 [CallLeader]
                [OtherPut "election/svc/3" "z" (Some 3)] one_at_a_time
                eq_refl eq_refl eq_refl) as H.
  cbv zeta in H.
  split; [exact (proj1 H)|].
  exact (proj2 (proj2 (proj2 (proj2 (proj2 (proj2 (proj2 (proj2 (proj2
           (proj2 (proj2 H))))))))))).
Defined.

(** ** proclaim and resign *)

Lemma commit_succeeded (t : Txn) (s : Store) :
  succeeded (snd (commit t s))
  = Z.eqb (create_revision_of (if_key t) s) (if_create_eq t).
Proof.
  unfold commit. repeat (break_match; cbn [snd succeeded]); reflexivity.
Qed.

Lemma commit_store (t : Txn) (s : Store) :
  fst (commit t s)
  = match (if succeeded (snd (commit t s)) then then_op t else else_op t) with
    | Some o => fst (apply_op o s)
    | None => s
    end.
Proof.
  rewrite commit_succeeded. unfold commit.
  destruct (Z.eqb (create_revision_of (if_key t) s) (if_create_eq t));
    repeat (break_match; cbn [fst]); reflexivity.
Qed.

Lemma answer_commit_at (t : Txn) (k : TxnResponse -> Pc) (i : nat) (w : World)
    (pc : Pc) :
  task i w = Some pc ->
  answer_commit t k i w
  = set_task i (k (snd (commit t (store w))))
             (set_store (fst (commit t (store w))) w)
  /\ task i (answer_commit t k i w) = Some (k (snd (commit t (store w)))).
Proof.
  intros Hi. destruct (resume_at w i pc Hi) as [Hlt Hset].
  unfold answer_commit. destruct (commit t (store w)) as [s' res]; cbn.
  split; [reflexivity|]. now apply Hset.
Qed.

Lemma spawn_task (pc : Pc) (w : World) :
  task (List.length (tasks w)) (spawn pc w) = Some pc.
Proof. unfold task, spawn; on_tasks. apply nth_error_snoc_new. Qed.

(** C4.  [proclaim value] with [leaderLeaseId] unset throws NotLeader at
    once: nothing is sent, store and fields stay as they are.  With the
    lease id set it sends one commit on [leaderKey], condition creation
    revision = [leaderRevision], with a put of [value] under the lease as
    its only branch; the store evaluates the condition on the state it
    has then; when the condition fails the store is left alone and the
    callback sets [leaderKey] to the empty string, keeps the other two
    fields and rejects with NotLeader; when it holds the promise
    resolves. *)
Theorem proclaim_not_leader_or_conditional :
  forall (w : World) (value : string) (between1 between2 : list Action),
    let i := List.length (tasks w) in
    others i between1 = true ->
    others i between2 = true ->
    let w1 := step (CallProclaim value) w in
    (falsy (leaderLeaseId (election w)) = true ->
     task i w1 = Some (ProclaimDone (Threw EtcdElectionNotLeaderError))
     /\ requests w1 = requests w
     /\ store w1 = store w
     /\ election w1 = election w)
    /\ (forall (leaseId : Z) (key : string) (rev : Z),
           leaderLeaseId (election w) = LeaseOf leaseId ->
           leaderKey (election w) = Some key ->
           leaderRevision (election w) = Some rev ->
           let t := mkTxn key rev (Some (OpPut key value (Some leaseId))) None in
           let w1' := exec between1 w1 in
           let res := snd (commit t (store w1')) in
           let w2 := step (Resume i) w1' in
           let w2' := exec between2 w2 in
           let w3 := step (Resume i) w2' in
           requests w1 = (requests w ++ [(i, Commit t)])%list
           /\ task i w2 = Some (ProclaimThen res)
           /\ succeeded res = Z.eqb (create_revision_of key (store w1')) rev
           /\ (succeeded res = true ->
               store w2 = put key value (Some leaseId) (store w1')
               /\ task i w3 = Some (ProclaimDone (Resolved None))
               /\ election w3 = election w2')
           /\ (succeeded res = false ->
               store w2 = store w1'
               /\ leaderKey (election w3) = Some ""
               /\ leaderRevision (election w3) = leaderRevision (election w2')
               /\ leaderLeaseId (election w3) = leaderLeaseId (election w2')
               /\ task i w3
                  = Some (ProclaimDone (Rejected EtcdElectionNotLeaderError)))).
Proof.
  intros w value between1 between2 i Ho1 Ho2 w1. split.
  - intros Hf. unfold w1; cbn [step]. unfold proclaim.
    destruct (leaderLeaseId (election w)); try discriminate;
      (split; [apply spawn_task | repeat split]).
  - intros leaseId key rev Hl Hk Hr t w1' res w2 w2' w3.
    assert (Hw1 : w1 = send i (Commit t) (spawn (ProclaimCommit t) w)).
    { unfold w1; cbn [step]. unfold proclaim. now rewrite Hl, Hk, Hr. }
    assert (Ht1 : task i w1 = Some (ProclaimCommit t)).
    { rewrite Hw1. apply (spawn_task (ProclaimCommit t) w). }
    destruct (exec_frame between1 w1 i _ Ht1 Ho1) as [Ht1' _].
    fold w1' in Ht1'.
    destruct (answer_commit_at t ProclaimThen i w1' _ Ht1') as [Ha Ht2].
    assert (Hw2 : w2 = answer_commit t ProclaimThen i w1').
    { unfold w2; cbn [step]. unfold resume. now rewrite Ht1'. }
    rewrite <- Hw2 in Ha, Ht2. fold res in Ha, Ht2.
    destruct (exec_frame between2 w2 i _ Ht2 Ho2) as [Ht2' _].
    fold w2' in Ht2'.
    destruct (resume_at w2' i _ Ht2') as [Hlt2 Hset2].
    assert (Hw3 : w3 = proclaim_then i res w2').
    { unfold w3; cbn [step]. unfold resume. now rewrite Ht2'. }
    assert (Hstore : store w2 = fst (commit t (store w1')))
      by (rewrite Ha; reflexivity).
    split; [rewrite Hw1; reflexivity|].
    split; [assumption|].
    split; [apply (commit_succeeded t)|].
    split; intros Hs.
    + rewrite Hstore, commit_store. fold res. rewrite Hs.
      split; [reflexivity|].
      rewrite Hw3. unfold proclaim_then. rewrite Hs.
      split; [now apply Hset2 | reflexivity].
    + rewrite Hstore, commit_store. fold res. rewrite Hs.
      split; [reflexivity|].
      rewrite Hw3. unfold proclaim_then. rewrite Hs.
      repeat (split; [reflexivity|]).
      unfold task, set_task, set_election; on_tasks.
      now apply nth_error_set_nth_eq.
Qed.

(** The leader's key is removed behind its back, as a lease expiry does;
    its next proclaim is told so. *)
Lemma proclaim_not_leader_or_conditional_witness :
  task 0 (step (CallProclaim "z") (newWorld (newElection "svc" None) emptyStore))
  = Some (ProclaimDone (Threw EtcdElectionNotLeaderError))
  /\ leaderKey
       (election
          (exec [CallProclaim "z"; OtherDelete "election/svc/2";
                 Resume 1; Resume 1] leading)) = Some ""
  /\ task 1 (exec [CallProclaim "z"; Resume 1; CallLeader; Resume 1] leading)
     = Some (ProclaimDone (Resolved None)).
Proof.
  split; [|split].
  - apply (proj1 (proclaim_not_leader_or_conditional
                    (newWorld (newElection "svc" None) emptyStore) "z" [] []
                    eq_refl eq_refl) eq_refl).
  - apply (proj2 (proclaim_not_leader_or_conditional
                    leading "z" [OtherDelete "election/svc/2"] []
                    eq_refl eq_refl) 2 "election/svc/2" 3
                 eq_refl eq_refl eq_refl).
    reflexivity.
  - apply (proj2 (proclaim_not_leader_or_conditional
                    leading "z" [] [CallLeader]
                    eq_refl eq_refl) 2 "election/svc/2" 3
                 eq_refl eq_refl eq_refl).
    reflexivity.
Defined.

(** C5.  [resign()] with [leaderLeaseId] unset returns at once: nothing is
    sent, nothing is emitted, store and fields stay as they are.  With the
    lease id set it sends one commit on [leaderKey], condition creation
    revision = [leaderRevision], whose only branch deletes the key; the
    store deletes the key when the condition holds and is left alone when
    it fails; in both cases the callback emits "resigned", sets
    [leaderKey] to the empty string and [leaderLeaseId] to null, and the
    promise resolves. *)
Theorem resign_clears_and_emits :
  forall (w : World) (between1 between2 : list Action),
    let i := List.length (tasks w) in
    others i between1 = true ->
    others i between2 = true ->
    let w1 := step CallResign w in
    (falsy (leaderLeaseId (election w)) = true ->
     task i w1 = Some (ResignDone Returned)
     /\ requests w1 = requests w
     /\ emitted w1 = emitted w
     /\ store w1 = store w
     /\ election w1 = election w)
    /\ (forall (leaseId : Z) (key : string) (rev : Z),
           leaderLeaseId (election w) = LeaseOf leaseId ->
           leaderKey (election w) = Some key ->
           leaderRevision (election w) = Some rev ->
           let t := mkTxn key rev (Some (OpDelete key)) None in
           let w1' := exec between1 w1 in
           let res := snd (commit t (store w1')) in
           let w2 := step (Resume i) w1' in
           let w2' := exec between2 w2 in
           let w3 := step (Resume i) w2' in
           requests w1 = (requests w ++ [(i, Commit t)])%list
           /\ task i w2 = Some (ResignThen res)
           /\ succeeded res = Z.eqb (create_revision_of key (store w1')) rev
           /\ (succeeded res = true -> store w2 = delete key (store w1'))
           /\ (succeeded res = false -> store w2 = store w1')
           /\ leaderKey (election w3) = Some ""
           /\ leaderLeaseId (election w3) = LeaseNull
           /\ emitted w3 = (emitted w2' ++ [resigned])%list
           /\ task i w3 = Some (ResignDone (Resolved None))).
Proof.
  intros w between1 between2 i Ho1 Ho2 w1. split.
  - intros Hf. unfold w1; cbn [step]. unfold resign.
    destruct (leaderLeaseId (election w)); try discriminate;
      (split; [apply spawn_task | repeat split]).
  - intros leaseId key rev Hl Hk Hr t w1' res w2 w2' w3.
    assert (Hw1 : w1 = send i (Commit t) (spawn (ResignCommit t) w)).
    { unfold w1; cbn [step]. unfold resign. now rewrite Hl, Hk, Hr. }
    assert (Ht1 : task i w1 = Some (ResignCommit t)).
    { rewrite Hw1. apply (spawn_task (ResignCommit t) w). }
    destruct (exec_frame between1 w1 i _ Ht1 Ho1) as [Ht1' _].
    fold w1' in Ht1'.
    destruct (answer_commit_at t ResignThen i w1' _ Ht1') as [Ha Ht2].
    assert (Hw2 : w2 = answer_commit t ResignThen i w1').
    { unfold w2; cbn [step]. unfold resume. now rewrite Ht1'. }
    rewrite <- Hw2 in Ha, Ht2. fold res in Ha, Ht2.
    destruct (exec_frame between2 w2 i _ Ht2 Ho2) as [Ht2' _].
    fold w2' in Ht2'.
    destruct (resume_at w2' i _ Ht2') as [Hlt2 Hset2].
    assert (Hw3 : w3 = resign_then i res w2').
    { unfold w3; cbn [step]. unfold resume. now rewrite Ht2'. }
    assert (Hstore : store w2 = fst (commit t (store w1')))
      by (rewrite Ha; reflexivity).
    split; [rewrite Hw1; reflexivity|].
    split; [assumption|].
    split; [apply (commit_succeeded t)|].
    split; [|split].
    + intros Hs. rewrite Hstore, commit_store. fold res. now rewrite Hs.
    + intros Hs. rewrite Hstore, commit_store. fold res. now rewrite Hs.
    + rewrite Hw3. unfold resign_then.
      repeat (split; [reflexivity|]).
      unfold task, set_task, set_election, emit; on_tasks.
      now apply nth_error_set_nth_eq.
Qed.

Lemma resign_clears_and_emits_witness :
  task 0 (step CallResign (newWorld (newElection "svc" None) emptyStore))
  = Some (ResignDone Returned)
  /\ store (exec [CallResign; Resume 1] leading)
     = delete "election/svc/2" (store leading)
  /\ emitted (exec [CallResign; Resume 1; Resume 1] leading)
     = [elected; resigned]
  /\ leaderLeaseId
       (election
          (exec [CallResign; OtherDelete "election/svc/2"; Resume 1;
                 Resume 1] leading)) = LeaseNull.
Proof.
  split; [|split; [|split]].
  - apply (proj1 (resign_clears_and_emits
                    (newWorld (newElection "svc" None) emptyStore) [] []
                    eq_refl eq_refl) eq_refl).
  - apply (proj2 (resign_clears_and_emits leading [] [] eq_refl eq_refl)
                 2 "election/svc/2" 3 eq_refl eq_refl eq_refl).
    reflexivity.
  - apply (proj2 (resign_clears_and_emits leading [] [] eq_refl eq_refl)
                 2 "election/svc/2" 3 eq_refl eq_refl eq_refl).
  - apply (proj2 (resign_clears_and_emits
                    leading [OtherDelete "election/svc/2"] []
                    eq_refl eq_refl)
                 2 "election/svc/2" 3 eq_refl eq_refl eq_refl).
Defined.

(** ** leader *)

Section Sorting.

Variable o : SortOrder.

Local Abbreviation R := (ordered o).

Lemma before_total (a b : KeyValue) : R a b \/ R b a.
Proof. unfold ordered, before. destruct o; lia. Qed.

Lemma before_trans (a b c : KeyValue) : R a b -> R b c -> R a c.
Proof. unfold ordered, before. destruct o; lia. Qed.

Lemma insert_sorted_sorted (x : KeyValue) (l : list KeyValue) :
  StronglySorted R l -> StronglySorted R (insert_sorted o x l).
Proof.
  induction 1 as [|y t Hs IH Hall]; cbn.
  - constructor; constructor.
  - destruct (before o x y) eqn:Hxy.
    + constructor; [now constructor|].
      constructor; [assumption|].
      eapply Forall_impl; [|exact Hall].
      intros z Hz. now apply (before_trans x y z).
    + constructor; [assumption|].
      apply Forall_forall. intros z Hz.
      apply insert_sorted_In in Hz as [->|Hz].
      * destruct (before_total x y) as [H|H]; [unfold ordered in H; congruence|].
        exact H.
      * rewrite Forall_forall in Hall. auto.
Qed.

Lemma sort_by_create_sorted (l : list KeyValue) :
  StronglySorted R (sort_by_create o l).
Proof.
  induction l as [|x l IH]; cbn; [constructor|].
  now apply insert_sorted_sorted.
Qed.

(** The first row comes before every row of the input. *)
Lemma sort_by_create_head (l : list KeyValue) (x : KeyValue)
    (rest : list KeyValue) :
  sort_by_create o l = x :: rest ->
  In x l /\ forall y, In y l -> before o x y = true.
Proof.
  intros H. pose proof (sort_by_create_sorted l) as Hs. rewrite H in Hs.
  split.
  - apply (sort_by_create_In o). rewrite H. now left.
  - intros y Hy. apply (sort_by_create_In o) in Hy. rewrite H in Hy.
    destruct Hy as [<-|Hy].
    + destruct (before_total x x); assumption.
    + apply StronglySorted_inv in Hs as [_ Hall].
      rewrite Forall_forall in Hall. now apply Hall.
Qed.

End Sorting.

Lemma leader_rows (e : Election) (s : Store) :
  (rows (range (leader_query e) s) = [] <->
   forall kv, In kv (kvs s) -> String.prefix (getPrefix e) (key kv) = false)
  /\ forall row rest,
       rows (range (leader_query e) s) = row :: rest ->
       In row (kvs s)
       /\ String.prefix (getPrefix e) (key row) = true
       /\ forall kv, In kv (kvs s) ->
                     String.prefix (getPrefix e) (key kv) = true ->
                     create_revision kv <= create_revision row.
Proof.
  unfold range, leader_query; cbn [rows sort_order]. split.
  - rewrite sort_by_create_nil, filter_nil. unfold in_range; cbn.
    split; intros H kv Hin; specialize (H kv Hin);
      now rewrite andb_true_r in *.
  - intros row rest H. apply sort_by_create_head in H as [Hin Hmax].
    apply filter_In in Hin as [Hin Hr].
    unfold in_range in Hr; cbn in Hr. rewrite andb_true_r in Hr.
    repeat split; try assumption.
    intros kv Hkv Hp.
    assert (Hf : In kv (filter (in_range
                   (mkRangeRequest (getPrefix e) None Descend)) (kvs s))).
    { apply filter_In. split; [assumption|].
      unfold in_range; cbn. now rewrite Hp. }
    specialize (Hmax kv Hf). cbn in Hmax. lia.
Qed.

(** C6.  [leader()] sends one range query over the prefix of the election,
    no bound on the creation revision, sorted by creation revision
    descending.  If the store has no key under the prefix when it answers,
    the promise rejects with NoLeader; if it has one, the promise resolves
    with the value of the first row, a record under the prefix whose
    creation revision is the greatest there.  No step of the call changes
    the fields of the election or the store. *)
Theorem leader_reads_latest :
  forall (w : World) (between1 between2 : list Action),
    let i := List.length (tasks w) in
    others i between1 = true ->
    others i between2 = true ->
    let p := getPrefix (election w) in
    let q := mkRangeRequest p None Descend in
    let w1 := step CallLeader w in
    let w1' := exec between1 w1 in
    let w2 := step (Resume i) w1' in
    let w2' := exec between2 w2 in
    let w3 := step (Resume i) w2' in
    requests w1 = (requests w ++ [(i, Range q)])%list
    /\ task i w2 = Some (LeaderThen (range q (store w1')))
    /\ ((forall kv, In kv (kvs (store w1')) ->
                    String.prefix p (key kv) = false) ->
        task i w3 = Some (LeaderDone (Rejected EtcdElectionNoLeaderError)))
    /\ (forall kv0, In kv0 (kvs (store w1')) ->
                    String.prefix p (key kv0) = true ->
        exists row rest,
          rows (range q (store w1')) = row :: rest
          /\ task i w3 = Some (LeaderDone (Resolved (Some (value row))))
          /\ In row (kvs (store w1'))
          /\ String.prefix p (key row) = true
          /\ forall kv, In kv (kvs (store w1')) ->
                        String.prefix p (key kv) = true ->
                        create_revision kv <= create_revision row)
    /\ (election w1 = election w /\ store w1 = store w)
    /\ (election w2 = election w1' /\ store w2 = store w1')
    /\ (election w3 = election w2' /\ store w3 = store w2').
Proof.
  intros w between1 between2 i Ho1 Ho2 p q w1 w1' w2 w2' w3.
  assert (Ht1 : task i w1 = Some (LeaderExec q))
    by apply (spawn_task (LeaderExec q) w).
  destruct (exec_frame between1 w1 i _ Ht1 Ho1) as [Ht1' _].
  fold w1' in Ht1'.
  destruct (resume_at w1' i _ Ht1') as [Hlt1 Hset1].
  assert (Hw2 : w2 = set_task i (LeaderThen (range q (store w1'))) w1').
  { unfold w2; cbn [step]. unfold resume. now rewrite Ht1'. }
  assert (Ht2 : task i w2 = Some (LeaderThen (range q (store w1')))).
  { rewrite Hw2. now apply Hset1. }
  destruct (exec_frame between2 w2 i _ Ht2 Ho2) as [Ht2' _].
  fold w2' in Ht2'.
  destruct (resume_at w2' i _ Ht2') as [Hlt2 Hset2].
  assert (Hw3 : w3 = leader_then i (range q (store w1')) w2').
  { unfold w3; cbn [step]. unfold resume. now rewrite Ht2'. }
  destruct (leader_rows (election w) (store w1')) as [Hnil Hhead].
  fold p in Hnil, Hhead. change (leader_query (election w)) with q in *.
  split; [reflexivity|].
  split; [assumption|].
  split; [|split].
  - intros Hnone. apply Hnil in Hnone.
    rewrite Hw3. unfold leader_then. rewrite Hnone. now apply Hset2.
  - intros kv0 Hin0 Hp0.
    destruct (rows (range q (store w1'))) as [|row rest] eqn:Hrows.
    + rewrite (proj1 Hnil eq_refl kv0 Hin0) in Hp0. discriminate.
    + exists row, rest. split; [reflexivity|].
      split; [|now apply (Hhead row rest)].
      rewrite Hw3. unfold leader_then. rewrite Hrows. now apply Hset2.
  - split; [split; reflexivity|].
    split; [rewrite Hw2; split; reflexivity|].
    rewrite Hw3. unfold leader_then.
    destruct (rows (range q (store w1'))); split; reflexivity.
Qed.

(** On an empty prefix there is no leader; in the scenario the leader read
    is B's value. *)
Lemma leader_reads_latest_witness :
  task 0 (exec [CallLeader; OtherPut "other/a" "v" None; Resume 0; Resume 0]
               (newWorld (newElection "svc" None) emptyStore))
  = Some (LeaderDone (Rejected EtcdElectionNoLeaderError))
  /\ exists row rest,
       rows (range (mkRangeRequest "election/svc/" None Descend)
                   (store (exec [CallLeader] leading))) = row :: rest
       /\ task 1 (exec [CallLeader; Resume 1; Resume 1] leading)
          = Some (LeaderDone (Resolved (Some (value row))))
       /\ value row = "y".
Proof.
  split.
  - apply (leader_reads_latest
             (newWorld (newElection "svc" None) emptyStore)
             [OtherPut "other/a" "v" None] [] eq_refl eq_refl).
    intros kv [<-|[]]. reflexivity.
  - destruct (proj1 (proj2 (proj2 (proj2
               (leader_reads_latest leading [] [] eq_refl eq_refl))))
               (mkKeyValue "election/svc/2" "y" 3 (Some 2))
               (or_introl eq_refl) eq_refl)
      as [row [rest [Hrows [Htask _]]]].
    exists row, rest. split; [exact Hrows|]. split; [exact Htask|].
    vm_compute in Hrows. now injection Hrows as <- _.
Defined.

(** ** The end of a campaign *)

Lemma abandoned_step (a : Action) (w : World) (i : nat) (pc : Pc) :
  task i w = Some pc -> (waiting pc || past_commit pc) = true ->
  leaderKey (election w) = Some "" ->
  quiet i a = true ->
  exists pc', task i (step a w) = Some pc'
              /\ (waiting pc' || past_commit pc') = true
              /\ leaderKey (election (step a w)) = Some ""
              /\ emitted (step a w) = emitted w.
Proof.
  intros Hi Hp Hk Hq. pose proof (nth_error_lt _ _ _ Hi) as Hlt.
  destruct a; cbn in Hq; try discriminate.
  - apply Nat.eqb_eq in Hq; subst. cbn [step]. unfold resume. rewrite Hi.
    destruct pc; try discriminate; try (exists CampaignDone; now auto);
      unfold_methods; unfold leaderKey_not_empty;
      try rewrite Hk; cbn [String.eqb negb];
      repeat (break_match; on_tasks); on_tasks;
      rewrite ?nth_error_set_nth_eq by assumption; eauto.
  - exists pc. cbn. auto.
  - exists pc. cbn. auto.
Qed.

Lemma abandoned_exec (acts : list Action) (w : World) (i : nat) (pc : Pc) :
  task i w = Some pc -> (waiting pc || past_commit pc) = true ->
  leaderKey (election w) = Some "" ->
  forallb (quiet i) acts = true ->
  emitted (exec acts w) = emitted w.
Proof.
  revert w pc; induction acts as [|a acts IH]; intros w pc Hi Hp Hk Hq;
    cbn; [reflexivity|].
  cbn in Hq. apply andb_prop in Hq as [Ha Hq].
  destruct (abandoned_step a w i pc Hi Hp Hk Ha) as [pc' [H1 [H2 [H3 H4]]]].
  rewrite (IH _ pc'); auto.
Qed.

(** C7.  When [waitDeletes] has resolved for a campaign, the callback of
    line 117 emits "elected" exactly when [leaderKey] is not the empty
    string at that moment, and emits nothing otherwise.  If the callback
    of a [resign] runs while the campaign is still waiting, then, as long
    as only that campaign and other clients move, nothing more is emitted:
    the wait may complete, "elected" does not fire. *)
Theorem elected_iff_leaderKey_not_empty :
  (forall (w : World) (i : nat) (h : ResponseHeader),
      task i w = Some (WaitDeletesResolved h) ->
      let w' := step (Resume i) w in
      task i w' = Some CampaignDone
      /\ (leaderKey_not_empty (election w) = true ->
          emitted w' = (emitted w ++ [elected])%list)
      /\ (leaderKey_not_empty (election w) = false ->
          emitted w' = emitted w)
      /\ (emitted w' = (emitted w ++ [elected])%list <->
          leaderKey_not_empty (election w) = true))
  /\ (forall (w : World) (i j : nat) (pc : Pc) (res : TxnResponse)
             (acts : list Action),
         task i w = Some pc -> waiting pc = true ->
         task j w = Some (ResignThen res) ->
         forallb (quiet i) acts = true ->
         let w1 := step (Resume j) w in
         leaderKey (election w1) = Some ""
         /\ emitted (exec acts w1) = (emitted w ++ [resigned])%list).
Proof.
  split.
  - intros w i h Hi w'. destruct (resume_at w i _ Hi) as [Hlt Hset].
    assert (Hw' : w' = campaign_elected i w).
    { unfold w'; cbn [step]. unfold resume. now rewrite Hi. }
    rewrite Hw'. unfold campaign_elected.
    destruct (leaderKey_not_empty (election w)).
    + split; [now apply Hset|]. repeat split; auto; discriminate.
    + split; [now apply Hset|].
      split; [discriminate|]. split; [reflexivity|].
      split; [|discriminate].
      cbn. intros H. rewrite <- (app_nil_r (emitted w)) in H at 1.
      apply app_inv_head in H. discriminate.
  - intros w i j pc res acts Hi Hw Hj Hq w1.
    assert (Hij : j <> i).
    { intros ->. rewrite Hi in Hj. injection Hj as ->. discriminate. }
    assert (Hw1 : w1 = resign_then j res w).
    { unfold w1; cbn [step]. unfold resume. now rewrite Hj. }
    assert (Hi1 : task i w1 = Some pc).
    { apply step_frame; [assumption|]. cbn. now apply Nat.eqb_neq. }
    assert (Hk1 : leaderKey (election w1) = Some "")
      by (rewrite Hw1; reflexivity).
    split; [assumption|].
    rewrite (abandoned_exec acts w1 i pc); auto.
    + rewrite Hw1. reflexivity.
    + now rewrite Hw.
Qed.

Lemma elected_iff_leaderKey_not_empty_witness :
  emitted (step (Resume 0) (exec one_at_a_time two_ahead)) = [elected]
  /\ task 0 (exec [Resume 1; OtherDelete "election/svc/1";
                   Resume 0; Resume 0; Resume 0; Resume 0]
                  resigning_while_waiting) = Some CampaignDone
  /\ emitted (exec [OtherDelete "election/svc/1";
                    Resume 0; Resume 0; Resume 0; Resume 0]
                   (step (Resume 1) resigning_while_waiting)) = [resigned].
Proof.
  split; [|split].
  - apply (proj1 elected_iff_leaderKey_not_empty
                 (exec one_at_a_time two_ahead) 0%nat (mkHeader 6) eq_refl).
    reflexivity.
  - reflexivity.
  - apply (proj2 elected_iff_leaderKey_not_empty
                 resigning_while_waiting 0%nat 1%nat (WaitDeleteListen 2 0)
                 (mkTxnResponse true (mkHeader 4) [DeleteResponse 1])
                 [OtherDelete "election/svc/1";
                  Resume 0; Resume 0; Resume 0; Resume 0]
                 eq_refl eq_refl eq_refl eq_refl).
Defined.

(** ** The three leader fields *)

(** A step leaves the fields alone, or is one of the three callbacks that
    write them. *)
Lemma step_election (a : Action) (w : World) :
  let e := election w in
  let e' := election (step a w) in
  e' = e
  \/ (exists key rev leaseId,
         e' = mkElection (keyPrefix e) (timeout e) (Some key) (Some rev)
                         (LeaseOf leaseId))
  \/ e' = mkElection (keyPrefix e) (timeout e) (Some "") (leaderRevision e)
                     (leaderLeaseId e)
  \/ e' = mkElection (keyPrefix e) (timeout e) (Some "") (leaderRevision e)
                     LeaseNull.
Proof.
  destruct a; cbn [step]; try (left; reflexivity).
  - left. unfold proclaim. repeat break_match; reflexivity.
  - left. unfold resign. repeat break_match; reflexivity.
  - left. unfold granted. repeat break_match; reflexivity.
  - unfold resume. destruct (task i w) as [[]|]; try (left; reflexivity).
    + left. unfold answer_commit. now break_match.
    + right; left. cbn. eauto.
    + left. unfold waitDeletes_then. now break_match.
    + left. unfold waitDelete_deleted. repeat break_match; reflexivity.
    + left. unfold campaign_elected. now break_match.
    + left. unfold answer_commit. now break_match.
    + unfold proclaim_then. break_match; [left|right; right; left]; reflexivity.
    + left. unfold answer_commit. now break_match.
    + right; right; right. reflexivity.
    + left. unfold leader_then. now break_match.
Qed.

Lemma fields_inv_step (a : Action) (w : World) :
  fields_inv (election w) -> fields_inv (election (step a w)).
Proof.
  intros [Hk Hl].
  destruct (step_election a w) as [H|[[key [rev [l H]]]|[H|H]]];
    rewrite H; clear H.
  - now split.
  - split; intros _; [reflexivity|]. split; [reflexivity|discriminate].
  - split; [discriminate|]. intros Hp. destruct (Hl Hp) as [Hr _].
    split; [exact Hr|discriminate].
  - split; discriminate.
Qed.

Lemma fields_inv_exec (acts : list Action) (w : World) :
  fields_inv (election w) -> fields_inv (election (exec acts w)).
Proof.
  revert w; induction acts as [|a acts IH]; intros w H; cbn;
    auto using fields_inv_step.
Qed.

(** C3, as the code has it.  In every state a run reaches from a new
    instance: a non-empty [leaderKey] comes with [leaderLeaseId] and
    [leaderRevision] set; [leaderLeaseId] set comes with [leaderRevision]
    set and [leaderKey] defined; no step clears [leaderRevision] once it
    is set; and when the three fields are neither all present nor all
    absent, [leaderKey] is the empty one and [leaderRevision] is still
    set. *)
Theorem leader_fields_invariant :
  forall (p : string) (t : option Z) (s : Store) (acts : list Action),
    let w := exec acts (newWorld (newElection p t) s) in
    let e := election w in
    (key_present e = true ->
     lease_present e = true /\ revision_present e = true)
    /\ (lease_present e = true ->
        revision_present e = true /\ leaderKey e <> None)
    /\ (forall a, revision_present e = true ->
                  revision_present (election (step a w)) = true)
    /\ (all_or_none e = false ->
        key_present e = false /\ revision_present e = true).
Proof.
  intros p t s acts w e.
  assert (H : fields_inv e).
  { apply fields_inv_exec. split; cbn; discriminate. }
  destruct H as [Hk Hl]. split; [|split; [|split]].
  - intros H. split; [auto|]. now apply Hl, Hk.
  - exact Hl.
  - intros a Hr.
    destruct (step_election a w) as [H|[[key [rev [l H]]]|[H|H]]];
      rewrite H; auto.
  - unfold all_or_none.
    destruct (key_present e) eqn:Ek, (lease_present e) eqn:El,
      (revision_present e) eqn:Er; cbn; try discriminate; auto;
      try (specialize (Hk eq_refl); discriminate);
      try (destruct (Hl eq_refl); discriminate).
Qed.

Lemma leader_fields_invariant_witness :
  key_present
    (election (exec (scenario ++ [CallResign; Resume 1; Resume 1])
                    (newWorld (newElection "svc" None) emptyStore))) = false
  /\ revision_present
       (election (exec (scenario ++ [CallResign; Resume 1; Resume 1])
                       (newWorld (newElection "svc" None) emptyStore))) = true.
Proof.
  assert (Hf : all_or_none
                 (election (exec (scenario ++ [CallResign; Resume 1; Resume 1])
                    (newWorld (newElection "svc" None) emptyStore))) = false)
    by (vm_compute; reflexivity).
  exact (proj2 (proj2 (proj2 (leader_fields_invariant "svc" None emptyStore
           (scenario ++ [CallResign; Resume 1; Resume 1])%list))) Hf).
Defined.

(** After the leader of the scenario resigns, [leaderKey] is empty and
    [leaderLeaseId] is null while [leaderRevision] is still 3; after a
    proclaim that finds the key gone, [leaderKey] is empty while lease id
    and revision are still set. *)
Lemma leader_fields_not_all_or_none :
  all_or_none (election (exec [CallResign; Resume 1; Resume 1] leading))
  = false
  /\ election (exec [CallResign; Resume 1; Resume 1] leading)
     = mkElection "svc" 5 (Some "") (Some 3) LeaseNull
  /\ all_or_none
       (election (exec [OtherDelete "election/svc/2"; CallProclaim "z";
                        Resume 1; Resume 1] leading)) = false
  /\ election (exec [OtherDelete "election/svc/2"; CallProclaim "z";
                     Resume 1; Resume 1] leading)
     = mkElection "svc" 5 (Some "") (Some 3) (LeaseOf 2).
Proof. split; [|split; [|split]]; vm_compute; reflexivity. Qed.

(** ** Watch subscriptions *)

Lemma delete_event_put (x : Watcher) (k v : string) (l : option Z) (s : Store) :
  delete_event x (put k v l s) = delete_event x s.
Proof. unfold put, delete_event. now destruct (lookup k s). Qed.

Lemma delete_event_delete (x : Watcher) (k : string) (s : Store) :
  delete_event x s = true -> delete_event x (delete k s) = true.
Proof.
  unfold delete, delete_event. destruct (lookup k s); [|auto].
  cbn [deleted existsb]. intros ->. apply orb_true_r.
Qed.

Lemma delete_event_commit (x : Watcher) (t : Txn) (s : Store) :
  delete_event x s = true -> delete_event x (fst (commit t s)) = true.
Proof.
  intros H. rewrite commit_store.
  destruct (if succeeded (snd (commit t s)) then then_op t else else_op t)
    as [[k v l|k|k]|]; cbn [apply_op fst];
    rewrite ?delete_event_put; auto using delete_event_delete.
Qed.

(** A delete event, once in the history, stays. *)
Lemma delete_event_step (x : Watcher) (a : Action) (w : World) :
  delete_event x (store w) = true ->
  delete_event x (store (step a w)) = true.
Proof.
  intros H. destruct a; cbn [step]; unfold_methods; on_tasks;
    rewrite ?delete_event_put; auto using delete_event_delete;
    repeat (break_match; on_tasks); on_tasks; auto;
    match goal with
    | E : commit ?t (store w) = (?s', _) |- _ =>
        change s' with (fst (s', t)); 
        replace s' with (fst (commit t (store w))) by (now rewrite E);
        now apply delete_event_commit
    end.
Qed.

(** Only line 49 touches the open subscriptions, and it adds one. *)
Lemma step_watchers (a : Action) (w : World) :
  watchers (step a w) = watchers w
  \/ exists i m key rev,
       a = Resume i /\ task i w = Some (WaitDeleteCreate m key rev)
       /\ step a w = waitDelete_then i m key rev w.
Proof.
  destruct a; cbn [step]; try (left; reflexivity).
  - left. unfold proclaim. repeat break_match; reflexivity.
  - left. unfold resign. repeat break_match; reflexivity.
  - left. unfold granted. repeat break_match; reflexivity.
  - unfold resume. destruct (task i w) as [[]|] eqn:Hi;
      try (left; reflexivity).
    + left. unfold answer_commit. now break_match.
    + left. unfold waitDeletes_then. now break_match.
    + right. eauto 8.
    + left. unfold waitDelete_deleted. repeat break_match; reflexivity.
    + left. unfold campaign_elected. now break_match.
    + left. unfold answer_commit. now break_match.
    + left. unfold proclaim_then. now break_match.
    + left. unfold answer_commit. now break_match.
    + left. unfold leader_then. now break_match.
Qed.

Lemma not_yet_before (x : Watcher) (a : Action) (w : World) :
  delete_event x (store (step a w)) = false ->
  delete_event x (store w) = false.
Proof.
  intros H. destruct (delete_event x (store w)) eqn:E; [|reflexivity].
  apply (delete_event_step x a) in E. congruence.
Qed.

Lemma listening_step (a : Action) (w : World) :
  listening w -> listening (step a w).
Proof.
  intros Hw n x Hn Hd.
  pose proof (not_yet_before x a w Hd) as Hd0.
  destruct (step_watchers a w) as [Hsame|[i [m [key [rev [-> [Hi Hs]]]]]]].
  - rewrite Hsame in Hn. destruct (Hw n x Hn Hd0) as [m Hm].
    exists m. destruct (addresses a (owner x)) eqn:Ha.
    + destruct a; cbn in Ha; try discriminate;
        apply Nat.eqb_eq in Ha; rewrite Ha; cbn [step].
      * unfold granted. now rewrite Hm.
      * unfold resume. rewrite Hm. unfold waitDelete_deleted.
        now rewrite Hn, Hd0.
    + now apply step_frame.
  - rewrite Hs in *. clear Hs.
    destruct (resume_at w i _ Hi) as [Hlt Hset].
    unfold waitDelete_then in Hn; cbn [watchers open_watcher set_task] in Hn.
    destruct (Nat.lt_ge_cases n (List.length (watchers w))) as [Hlt'|Hge].
    + rewrite nth_error_app1 in Hn by assumption.
      destruct (Hw n x Hn Hd0) as [m' Hm'].
      exists m'. unfold waitDelete_then, task, set_task, open_watcher;
        on_tasks.
      rewrite nth_error_set_nth_ne; [assumption|].
      intros E. unfold task in Hi, Hm'. rewrite E in Hi. congruence.
    + rewrite nth_error_app2 in Hn by assumption.
      destruct (n - List.length (watchers w))%nat as [|k] eqn:Ek;
        [|destruct k; discriminate].
      cbn in Hn. injection Hn as <-. cbn [owner].
      assert (n = List.length (watchers w)) by lia. subst n.
      exists m. unfold waitDelete_then. now apply Hset.
Qed.

Lemma listening_exec (acts : list Action) (w : World) :
  listening w -> listening (exec acts w).
Proof.
  revert w; induction acts as [|a acts IH]; intros w H; cbn;
    auto using listening_step.
Qed.

Lemma watchers_exec (acts : list Action) (w : World) :
  exists more, watchers (exec acts w) = (watchers w ++ more)%list.
Proof.
  revert w; induction acts as [|a acts IH]; intros w; cbn.
  - exists []. now rewrite app_nil_r.
  - destruct (IH (step a w)) as [more Hmore]. rewrite Hmore.
    destruct (step_watchers a w) as [->|[i [m [key [rev [_ [_ ->]]]]]]].
    + eauto.
    + cbn. rewrite <- app_assoc. eauto.
Qed.

(** C9, as the code has it.  In every state a run reaches from a new
    instance, a call has at most one subscription still waiting for its
    delete event: two subscriptions of one call that both wait are the
    same one.  No step releases a subscription: along any further run the
    open subscriptions are kept, in order, and only added to. *)
Theorem watches_one_pending_never_released :
  forall (p : string) (t : option Z) (s : Store) (acts : list Action),
    let w := exec acts (newWorld (newElection p t) s) in
    (forall n n' x x',
        nth_error (watchers w) n = Some x ->
        nth_error (watchers w) n' = Some x' ->
        owner x = owner x' ->
        delete_event x (store w) = false ->
        delete_event x' (store w) = false ->
        n = n')
    /\ (forall further,
           exists more,
             watchers (exec further w) = (watchers w ++ more)%list).
Proof.
  intros p t s acts w. split.
  - intros n n' x x' Hn Hn' Ho Hd Hd'.
    assert (Hl : listening w).
    { apply listening_exec. intros k y Hk. now destruct k. }
    destruct (Hl n x Hn Hd) as [m Hm].
    destruct (Hl n' x' Hn' Hd') as [m' Hm'].
    rewrite <- Ho, Hm in Hm'. now injection Hm'.
  - intros further. apply watchers_exec.
Qed.

Lemma watches_one_pending_never_released_witness :
  0%nat = 0%nat
  /\ exists more,
       watchers (exec [OtherDelete "election/svc/1"; Resume 0; Resume 0;
                       Resume 0; Resume 0]
                   (exec [ OtherPut "election/svc/1" "x" (Some 1);
                           OtherPut "election/svc/3" "z" (Some 3);
                           CallCampaign "y"; Granted 0 2; Resume 0; Resume 0;
                           Resume 0; Resume 0; Resume 0 ]
                      (newWorld (newElection "svc" None) emptyStore)))
       = ([mkWatcher 0 "election/svc/1" 4] ++ more)%list.
Proof.
  pose proof (watches_one_pending_never_released "svc" None emptyStore
                [ OtherPut "election/svc/1" "x" (Some 1);
                  OtherPut "election/svc/3" "z" (Some 3);
                  CallCampaign "y"; Granted 0 2; Resume 0; Resume 0;
                  Resume 0; Resume 0; Resume 0 ]) as [Hone Hkept].
  split.
  - exact (Hone 0%nat 0%nat (mkWatcher 0 "election/svc/1" 4)
                (mkWatcher 0 "election/svc/1" 4)
                eq_refl eq_refl eq_refl eq_refl eq_refl).
  - exact (Hkept [OtherDelete "election/svc/1"; Resume 0; Resume 0;
                  Resume 0; Resume 0]).
Defined.

(** After the campaign behind two predecessors is elected, both of its
    subscriptions are still open, each with its delete event delivered;
    the second was opened while the first was open. *)
Lemma watches_left_open :
  task 0 elected_after_two = Some CampaignDone
  /\ watchers elected_after_two
     = [mkWatcher 0 "election/svc/1" 4; mkWatcher 0 "election/svc/3" 5]
  /\ at_most_one_open elected_after_two = false
  /\ released_once_observed elected_after_two = false.
Proof. split; [|split; [|split]]; vm_compute; reflexivity. Qed.

(** ** A campaign whose key is already there *)

Lemma store_wf_put (k v : string) (l : option Z) (s : Store) :
  store_wf s -> store_wf (put k v l s).
Proof.
  intros [H0 Hs]. unfold put, store_wf.
  destruct (lookup k s); cbn [kvs store_revision]; (split; [lia|]);
    intros kv Hin.
  - apply in_map_iff in Hin as [kv' [<- Hin]].
    specialize (Hs kv' Hin). destruct (has_key k kv'); cbn; lia.
  - apply in_app_or in Hin as [Hin|[<-|[]]]; [|cbn; lia].
    specialize (Hs kv Hin). lia.
Qed.

Lemma store_wf_delete (k : string) (s : Store) :
  store_wf s -> store_wf (delete k s).
Proof.
  intros [H0 Hs]. unfold delete.
  destruct (lookup k s); [|now split].
  split; cbn [kvs store_revision]; [lia|].
  intros kv Hin. apply filter_In in Hin as [Hin _].
  specialize (Hs kv Hin). lia.
Qed.

Lemma store_wf_commit (t : Txn) (s : Store) :
  store_wf s -> store_wf (fst (commit t s)).
Proof.
  intros H. rewrite commit_store.
  destruct (if succeeded (snd (commit t s)) then then_op t else else_op t)
    as [[k v l|k|k]|]; cbn [apply_op fst];
    auto using store_wf_put, store_wf_delete.
Qed.

Lemma store_wf_step (a : Action) (w : World) :
  store_wf (store w) -> store_wf (store (step a w)).
Proof.
  intros H. destruct a; cbn [step]; unfold_methods; on_tasks;
    auto using store_wf_put, store_wf_delete;
    repeat (break_match; on_tasks); on_tasks; auto;
    match goal with
    | E : commit ?t (store w) = (?s', _) |- _ =>
        replace s' with (fst (commit t (store w))) by (now rewrite E);
        now apply store_wf_commit
    end.
Qed.

Lemma store_wf_exec (acts : list Action) (w : World) :
  store_wf (store w) -> store_wf (store (exec acts w)).
Proof.
  revert w; induction acts as [|a acts IH]; intros w H; cbn;
    auto using store_wf_step.
Qed.

Lemma store_wf_empty : store_wf emptyStore.
Proof. split; cbn; [lia|tauto]. Qed.

Lemma lookup_In (k : string) (s : Store) (kv : KeyValue) :
  lookup k s = Some kv -> In kv (kvs s) /\ key kv = k.
Proof.
  unfold lookup. intros H. apply find_some in H as [Hin Hk].
  split; [assumption|]. now apply String.eqb_eq.
Qed.

Lemma reentrant_commit (key value : string) (leaseId : Z) (s : Store)
    (kv : KeyValue) :
  lookup key s = Some kv -> create_revision kv <> 0 ->
  commit (campaign_txn key value leaseId) s
  = (s, mkTxnResponse false (mkHeader (store_revision s))
                      [RangeResponseOf [kv]]).
Proof.
  intros Hl Hc. unfold commit, campaign_txn, create_revision_of.
  cbn [if_key if_create_eq then_op else_op]. rewrite Hl.
  apply Z.eqb_neq in Hc. rewrite Hc. cbn. now rewrite Hl.
Qed.

Lemma proclaim_commit (key value : string) (rev leaseId : Z) (s : Store)
    (kv : KeyValue) :
  lookup key s = Some kv ->
  commit (proclaim_txn key rev value leaseId) s
  = if Z.eqb (create_revision kv) rev
    then (put key value (Some leaseId) s,
          mkTxnResponse true (mkHeader (store_revision s + 1)) [PutResponse])
    else (s, mkTxnResponse false (mkHeader (store_revision s)) []).
Proof.
  intros Hl. unfold commit, proclaim_txn, create_revision_of.
  cbn [if_key if_create_eq then_op else_op]. rewrite Hl.
  destruct (Z.eqb (create_revision kv) rev); cbn; [|reflexivity].
  unfold put. now rewrite Hl.
Qed.

(** C10, as the code and the store have it.  When the campaign commits
    while its key exists, the condition fails, the commit only reads, and
    the revision recorded as [leaderRevision] is the revision of the store
    at that commit: at least the creation revision of the key, and greater
    exactly when something was written after the key was created.  A
    proclaim that follows compares the creation revision of the key with
    that recorded revision: if it is smaller the proclaim rejects with
    NotLeader, empties [leaderKey] and leaves the store, key included, as
    it was; if the two are equal the proclaim succeeds and replaces the
    value. *)
Theorem reentrant_campaign_revision :
  forall (w : World) (i : nat) (value value' : string) (leaseId : Z)
         (kv : KeyValue),
    let key := getKey (election w) leaseId in
    task i w = Some (CampaignCommit key value leaseId
                                    (campaign_txn key value leaseId)) ->
    store_wf (store w) ->
    lookup key (store w) = Some kv ->
    let w2 := exec [Resume i; Resume i] w in
    let j := List.length (tasks w2) in
    let w5 := exec [CallProclaim value'; Resume j; Resume j] w2 in
    leaderRevision (election w2) = Some (store_revision (store w))
    /\ create_revision kv <= store_revision (store w)
    /\ store w2 = store w
    /\ (create_revision kv < store_revision (store w) ->
        task j w5 = Some (ProclaimDone (Rejected EtcdElectionNotLeaderError))
        /\ leaderKey (election w5) = Some ""
        /\ store w5 = store w)
    /\ (create_revision kv = store_revision (store w) ->
        task j w5 = Some (ProclaimDone (Resolved None))
        /\ leaderKey (election w5) = Some key
        /\ store w5 = put key value' (Some leaseId) (store w)).
Proof.
  intros w i value value' leaseId kv key Hi Hwf Hl w2 j w5.
  destruct (lookup_In _ _ _ Hl) as [Hin _].
  destruct Hwf as [_ Hwf]. specialize (Hwf kv Hin).
  assert (Hc : create_revision kv <> 0) by lia.
  pose proof (nth_error_lt _ _ _ Hi) as Hlt.
  destruct w as [s ws rq e em ts].
  unfold task in Hi; cbn [tasks store election] in *.
  assert (Hw2 : w2 = mkWorld s ws
                  (rq ++ [(i, Range (waitDeletes_query e (store_revision s - 1)))])
                  (mkElection (keyPrefix e) (timeout e) (Some key)
                              (Some (store_revision s)) (LeaseOf leaseId))
                  em
                  (set_nth i (WaitDeletesExec (store_revision s - 1)
                                (waitDeletes_query e (store_revision s - 1)))
                     (set_nth i (CampaignThen key value leaseId
                           (mkTxnResponse false (mkHeader (store_revision s))
                                          [RangeResponseOf [kv]])) ts))).
  { unfold w2. cbn [exec step]. unfold resume at 2, task. cbn [tasks].
    rewrite Hi. unfold answer_commit. cbn [store].
    rewrite (reentrant_commit key value leaseId s kv Hl Hc).
    unfold resume, task, set_task, set_store. cbn [tasks].
    rewrite nth_error_set_nth_eq by assumption.
    reflexivity. }
  clearbody w2. subst w2. cbn [tasks election store leaderRevision] in *.
  set (ts2 := set_nth i _ (set_nth i _ ts)) in *.
  set (rev := store_revision s) in *.
  remember (proclaim_txn key rev value' leaseId) as t eqn:Et.
  assert (Hcm : commit t s
                = if Z.eqb (create_revision kv) rev
                  then (put key value' (Some leaseId) s,
                        mkTxnResponse true (mkHeader (rev + 1)) [PutResponse])
                  else (s, mkTxnResponse false (mkHeader rev) []))
    by (subst t; now apply proclaim_commit).
  assert (Hj : nth_error (ts2 ++ [ProclaimCommit t]) j
               = Some (ProclaimCommit t)) by apply nth_error_snoc_new.
  assert (Hjlt : (j < List.length (ts2 ++ [ProclaimCommit t]))%nat)
    by (eapply nth_error_lt; exact Hj).
  assert (Hw5 : w5
                = proclaim_then j
                    (snd (commit t s))
                    (set_task j (ProclaimThen (snd (commit t s)))
                       (set_store (fst (commit t s))
                          (send j (Commit t)
                             (spawn (ProclaimCommit t)
                                (mkWorld s ws
                                   (rq ++ [(i, Range (waitDeletes_query e (rev - 1)))])
                                   (mkElection (keyPrefix e) (timeout e)
                                      (Some key) (Some rev) (LeaseOf leaseId))
                                   em ts2)))))).
  { unfold w5. cbn [exec step]. unfold proclaim.
    cbn [election leaderLeaseId leaderKey leaderRevision tasks].
    fold j. rewrite <- Et.
    unfold resume at 2, task, send, spawn. cbn [tasks]. rewrite Hj.
    unfold answer_commit. cbn [store].
    destruct (commit t s) as [s' res]. cbn [fst snd].
    unfold resume, task, set_task, set_store. cbn [tasks].
    rewrite nth_error_set_nth_eq by assumption. reflexivity. }
  clearbody w5. subst w5. rewrite Hcm.
  split; [reflexivity|]. split; [lia|]. split; [reflexivity|].
  split; intros Hrev.
  - replace (Z.eqb (create_revision kv) rev) with false
      by (symmetry; apply Z.eqb_neq; lia).
    cbn [fst snd]. unfold proclaim_then. cbn [succeeded].
    unfold task, set_task, set_store, set_election, send, spawn.
    cbn [tasks election store leaderKey].
    rewrite nth_error_set_nth_eq
      by (rewrite length_set_nth; assumption).
    repeat split.
  - replace (Z.eqb (create_revision kv) rev) with true
      by (symmetry; apply Z.eqb_eq; lia).
    cbn [fst snd]. unfold proclaim_then. cbn [succeeded].
    unfold task, set_task, set_store, set_election, send, spawn.
    cbn [tasks election store leaderKey].
    rewrite nth_error_set_nth_eq
      by (rewrite length_set_nth; assumption).
    repeat split.
Qed.

Lemma reentrant_campaign_revision_witness :
  leaderRevision (election (exec [Resume 0; Resume 0] reentrant)) = Some 3
  /\ task 1 (exec [CallProclaim "z"; Resume 1; Resume 1]
                  (exec [Resume 0; Resume 0] reentrant))
     = Some (ProclaimDone (Rejected EtcdElectionNotLeaderError))
  /\ store (exec [CallProclaim "z"; Resume 1; Resume 1]
                  (exec [Resume 0; Resume 0] reentrant))
     = store reentrant.
Proof.
  assert (Hwf : store_wf (store reentrant))
    by (apply store_wf_exec, store_wf_empty).
  destruct (reentrant_campaign_revision
              reentrant 0 "y" "z" 2
              (mkKeyValue "election/svc/2" "old" 2 (Some 2))
              eq_refl Hwf eq_refl) as [Hrev [_ [_ [Hlt _]]]].
  split; [exact Hrev|].
  assert (H23 : 2 < 3) by lia.
  destruct (Hlt H23) as [Htask [_ Hstore]].
  split; [exact Htask|exact Hstore].
Defined.

(** The key of lease 2 was the last write before the campaign under lease
    2 committed: the revision recorded equals the creation revision of the
    key, and the proclaim that follows succeeds. *)
Lemma reentrant_campaign_not_greater :
  create_revision_of "election/svc/2" (store reentrant_last) = 2
  /\ leaderRevision (election (exec [Resume 0; Resume 0] reentrant_last))
     = Some 2
  /\ task 1 (exec [Resume 0; Resume 0; CallProclaim "z"; Resume 1; Resume 1]
                  reentrant_last)
     = Some (ProclaimDone (Resolved None))
  /\ task 1 (exec [Resume 0; Resume 0; CallProclaim "z"; Resume 1; Resume 1]
                  reentrant_last)
     <> Some (ProclaimDone (Rejected EtcdElectionNotLeaderError)).
Proof.
  split; [|split; [|split]]; try (vm_compute; reflexivity).
  vm_compute. discriminate.
Qed.

(** ** waitDeletes and the revision of the store *)








Section NoOlder.

Variables (p : string) (b : Z).





End NoOlder.

Section Clear.

Variables (e0 : Election) (b : Z).



End Clear.




(** * Further properties of the class *)

(** ** Keys and the prefix of the election *)

Lemma prefix_append (a b : string) : String.prefix a (a ++ b) = true.
Proof.
  induction a as [|c a IH]; cbn; [now destruct b|].
  destruct (ascii_dec c c); [assumption|congruence].
Qed.

Lemma prefix_trans_append (a b c : string) :
  String.prefix a b = true -> String.prefix a (b ++ c) = true.
Proof.
  revert b; induction a as [|x a IH]; intros b H;
    [now destruct (b ++ c)|].
  destruct b as [|y b]; cbn in *; [discriminate|].
  destruct (ascii_dec x y); [now apply IH|discriminate].
Qed.

Lemma getKey_under_prefix (e : Election) (leaseId : Z) :
  String.prefix (getPrefix e) (getKey e leaseId) = true.
Proof. unfold getKey. apply prefix_append. Qed.

Lemma getKey_not_empty (e : Election) (leaseId : Z) :
  String.eqb (getKey e leaseId) "" = false.
Proof. reflexivity. Qed.

(** X1.  The record a campaign keeps under [getKey leaseId] is in the
    range of [leader()]'s query, and in the range of [waitDeletes b]
    exactly when it was created at or before [b]: the key never falls
    outside the prefix the election queries, whatever the lease id. *)
Theorem campaign_key_in_range :
  forall (e : Election) (leaseId : Z) (v : string) (r : Z) (l : option Z)
         (b : Z),
    in_range (leader_query e) (mkKeyValue (getKey e leaseId) v r l) = true
    /\ in_range (waitDeletes_query e b) (mkKeyValue (getKey e leaseId) v r l)
       = Z.leb r b.
Proof.
  intros e leaseId v r l b. unfold in_range, leader_query, waitDeletes_query.
  cbn [range_prefix max_create_revision key create_revision].
  now rewrite getKey_under_prefix.
Qed.

(** X2.  An election whose [keyPrefix] continues another's after a slash
    keeps its keys under the other's prefix too: the range queries of the
    outer election, [leader()] and [waitDeletes], take in the campaign
    keys of the inner one. *)
Theorem nested_prefix_shares_keys :
  forall (outer inner : Election) (rest : string) (leaseId : Z)
         (v : string) (r : Z) (l : option Z) (b : Z),
    keyPrefix inner = keyPrefix outer ++ "/" ++ rest ->
    String.prefix (getPrefix outer) (getKey inner leaseId) = true
    /\ in_range (leader_query outer)
                (mkKeyValue (getKey inner leaseId) v r l) = true
    /\ in_range (waitDeletes_query outer b)
                (mkKeyValue (getKey inner leaseId) v r l) = Z.leb r b.
Proof.
  intros outer inner rest leaseId v r l b Hk.
  assert (Hp : String.prefix (getPrefix outer) (getKey inner leaseId) = true).
  { unfold getKey. apply prefix_trans_append.
    unfold getPrefix. rewrite Hk. cbn.
    repeat (destruct (ascii_dec _ _); [|congruence]).
    rewrite append_assoc.
    change (String "/" rest ++ "/") with ("/" ++ (rest ++ "/")).
    rewrite <- append_assoc. apply prefix_append. }
  split; [exact Hp|].
  unfold in_range, leader_query, waitDeletes_query.
  cbn [range_prefix max_create_revision key create_revision].
  now rewrite Hp.
Qed.

Lemma nested_prefix_shares_keys_witness :
  String.prefix (getPrefix (newElection "svc" None))
                (getKey (newElection "svc/eu" None) 255) = true
  /\ in_range (leader_query (newElection "svc" None))
              (mkKeyValue (getKey (newElection "svc/eu" None) 255) "v" 7 None)
     = true
  /\ in_range (waitDeletes_query (newElection "svc" None) 9)
              (mkKeyValue (getKey (newElection "svc/eu" None) 255) "v" 7 None)
     = Z.leb 7 9.
Proof.
  apply (nested_prefix_shares_keys (newElection "svc" None)
           (newElection "svc/eu" None) "eu" 255 "v" 7 None 9).
  reflexivity.
Defined.

(** ** A campaign with nobody ahead *)

Lemma no_key_under_prefix_lookup (e : Election) (leaseId : Z) (s : Store) :
  (forall kv, In kv (kvs s) -> String.prefix (getPrefix e) (key kv) = false) ->
  lookup (getKey e leaseId) s = None.
Proof.
  intros H. destruct (lookup (getKey e leaseId) s) as [kv|] eqn:E;
    [|reflexivity].
  apply lookup_In in E as [Hin Hk]. specialize (H kv Hin).
  rewrite Hk, getKey_under_prefix in H. discriminate.
Qed.

Lemma find_app {A : Type} (f : A -> bool) (l l' : list A) :
  find f (l ++ l')
  = match find f l with
    | Some x => Some x
    | None => find f l'
    end.
Proof. induction l as [|x l IH]; cbn; [reflexivity|]. now destruct (f x). Qed.

Lemma create_commit (key value : string) (leaseId : Z) (s : Store) :
  lookup key s = None ->
  commit (campaign_txn key value leaseId) s
  = (mkStore (kvs s ++ [mkKeyValue key value (store_revision s + 1)
                                   (Some leaseId)])
             (store_revision s + 1) (deleted s),
     mkTxnResponse true (mkHeader (store_revision s + 1)) [PutResponse]).
Proof.
  intros Hl. unfold commit, campaign_txn, create_revision_of.
  cbn [if_key if_create_eq then_op else_op]. rewrite Hl. cbn.
  unfold put. now rewrite Hl.
Qed.

(** X3.  A campaign on a prefix that holds no key is elected without
    watching anything: its commit creates the key at the next revision,
    the query of [waitDeletes] (bound: that revision minus one) leaves
    the key it has just created out and comes back empty, and "elected"
    is emitted; the three fields hold the key, that revision and the
    lease id. *)
Theorem campaign_alone_is_elected :
  forall (w : World) (i : nat) (value : string) (leaseId : Z),
    task i w = Some (CampaignGrant value) ->
    (forall kv, In kv (kvs (store w)) ->
                String.prefix (getPrefix (election w)) (key kv) = false) ->
    let key := getKey (election w) leaseId in
    let rev := store_revision (store w) + 1 in
    let w' := exec [Granted i leaseId; Resume i; Resume i; Resume i;
                    Resume i; Resume i] w in
    task i w' = Some CampaignDone
    /\ emitted w' = (emitted w ++ [elected])%list
    /\ watchers w' = watchers w
    /\ lookup key (store w') = Some (mkKeyValue key value rev (Some leaseId))
    /\ store_revision (store w') = rev
    /\ leaderKey (election w') = Some key
    /\ leaderRevision (election w') = Some rev
    /\ leaderLeaseId (election w') = LeaseOf leaseId.
Proof.
  intros w i value leaseId Hi Hnone key rev w'.
  pose proof (no_key_under_prefix_lookup (election w) leaseId (store w) Hnone)
    as Hl. fold key in Hl.
  set (kv := mkKeyValue key value rev (Some leaseId)).
  set (s' := mkStore (kvs (store w) ++ [kv]) rev (deleted (store w))).
  set (res := mkTxnResponse true (mkHeader rev) [PutResponse]).
  set (t := campaign_txn key value leaseId).
  assert (Hcm : commit t (store w) = (s', res))
    by apply (create_commit key value leaseId (store w) Hl).
  subst w'. cbn [exec].
  remember (step (Granted i leaseId) w) as w1 eqn:E1.
  remember (step (Resume i) w1) as w2 eqn:E2.
  remember (step (Resume i) w2) as w3 eqn:E3.
  remember (step (Resume i) w3) as w4 eqn:E4.
  remember (step (Resume i) w4) as w5 eqn:E5.
  remember (step (Resume i) w5) as w' eqn:E6.
  (* the grant *)
  assert (Hw1 : w1 = set_task i (CampaignCommit key value leaseId t)
                              (send i (Commit t) w)).
  { rewrite E1; cbn [step]. unfold granted. now rewrite Hi. }
  assert (H1 : task i w1 = Some (CampaignCommit key value leaseId t)).
  { rewrite Hw1. now apply (resume_at w i _ Hi). }
  (* the store commits *)
  assert (Hw2 : w2 = set_task i (CampaignThen key value leaseId res)
                              (set_store s' w1)).
  { rewrite E2; cbn [step]. unfold resume. rewrite H1.
    rewrite (proj1 (answer_commit_at t _ i w1 _ H1)).
    replace (store w1) with (store w) by (rewrite Hw1; reflexivity).
    now rewrite Hcm. }
  assert (H2 : task i w2 = Some (CampaignThen key value leaseId res)).
  { rewrite Hw2. now apply (resume_at w1 i _ H1). }
  (* the callback records the triple and queries *)
  assert (Hw3 : w3 = campaign_then i key leaseId res w2).
  { rewrite E3; cbn [step]. unfold resume. now rewrite H2. }
  assert (He3 : election w3
                = mkElection (keyPrefix (election w)) (timeout (election w))
                             (Some key) (Some rev) (LeaseOf leaseId)).
  { rewrite Hw3, Hw2, Hw1. reflexivity. }
  assert (H3 : task i w3
               = Some (WaitDeletesExec (rev - 1)
                         (waitDeletes_query (election w) (rev - 1)))).
  { rewrite Hw3. unfold campaign_then, waitDeletes.
    rewrite (proj2 (resume_at w2 i _ H2)) by reflexivity.
    rewrite Hw2, Hw1. reflexivity. }
  assert (Hs3 : store w3 = s') by (rewrite Hw3, Hw2; reflexivity).
  (* the store answers: nothing older *)
  assert (Hrows : rows (range (waitDeletes_query (election w) (rev - 1)) s')
                  = []).
  { apply waitDeletes_query_empty. cbn [kvs s']. intros x Hin Hp.
    apply in_app_or in Hin as [Hin|[<-|[]]].
    - rewrite (Hnone x Hin) in Hp. discriminate.
    - cbn. lia. }
  assert (Hw4 : w4 = set_task i (WaitDeletesThen (rev - 1)
                        (range (waitDeletes_query (election w) (rev - 1)) s'))
                        w3).
  { rewrite E4; cbn [step]. unfold resume. now rewrite H3, Hs3. }
  assert (H4 : task i w4
               = Some (WaitDeletesThen (rev - 1)
                        (range (waitDeletes_query (election w) (rev - 1)) s'))).
  { rewrite Hw4. now apply (resume_at w3 i _ H3). }
  assert (Hw5 : w5 = set_task i (WaitDeletesResolved (mkHeader rev)) w4).
  { rewrite E5; cbn [step]. unfold resume. rewrite H4.
    unfold waitDeletes_then. now rewrite Hrows. }
  assert (H5 : task i w5 = Some (WaitDeletesResolved (mkHeader rev))).
  { rewrite Hw5. now apply (resume_at w4 i _ H4). }
  (* elected *)
  assert (Hw' : w' = set_task i CampaignDone (emit elected w5)).
  { rewrite E6. cbn [step]. unfold resume.
    rewrite H5. unfold campaign_elected, leaderKey_not_empty.
    replace (election w5) with (election w3)
      by (rewrite Hw5, Hw4; reflexivity).
    rewrite He3. cbn [leaderKey]. unfold key.
    now rewrite getKey_not_empty. }
  assert (He' : election w' = election w3)
    by (rewrite Hw', Hw5, Hw4; reflexivity).
  assert (Hs' : store w' = s')
    by (rewrite Hw', Hw5, Hw4; exact Hs3).
  split; [rewrite Hw'; now apply (resume_at w5 i _ H5)|].
  split; [rewrite Hw', Hw5, Hw4, Hw3, Hw2, Hw1; reflexivity|].
  split; [rewrite Hw', Hw5, Hw4, Hw3, Hw2, Hw1; reflexivity|].
  split.
  { rewrite Hs'. unfold lookup in *. cbn [kvs s']. rewrite find_app, Hl.
    cbn. unfold has_key. cbn [Etcd.key kv]. now rewrite String.eqb_refl. }
  split; [rewrite Hs'; reflexivity|].
  rewrite He', He3. now repeat split.
Qed.

Lemma campaign_alone_is_elected_witness :
  task 0 (exec [Granted 0 2; Resume 0; Resume 0; Resume 0; Resume 0; Resume 0]
               alone) = Some CampaignDone
  /\ emitted (exec [Granted 0 2; Resume 0; Resume 0; Resume 0; Resume 0;
                    Resume 0] alone) = (emitted alone ++ [elected])%list
  /\ watchers (exec [Granted 0 2; Resume 0; Resume 0; Resume 0; Resume 0;
                     Resume 0] alone) = watchers alone.
Proof.
  assert (Hnone : forall kv, In kv (kvs (store alone)) ->
                    String.prefix (getPrefix (election alone)) (key kv)
                    = false).
  { intros kv Hin. vm_compute in Hin. destruct Hin as [<-|[]]. reflexivity. }
  destruct (campaign_alone_is_elected alone 0 "y" 2 eq_refl Hnone)
    as (H1 & H2 & H3 & _).
  split; [exact H1|]. split; [exact H2|exact H3].
Defined.

(** ** The wait for predecessors, step by step *)

Lemma waitDeletes_rows (e : Election) (b : Z) (s : Store) (row : KeyValue)
    (rest : list KeyValue) :
  rows (range (waitDeletes_query e b) s) = row :: rest ->
  In row (kvs s)
  /\ String.prefix (getPrefix e) (key row) = true
  /\ create_revision row <= b
  /\ forall kv, In kv (kvs s) ->
                String.prefix (getPrefix e) (key kv) = true ->
                create_revision kv <= b ->
                create_revision row <= create_revision kv.
Proof.
  unfold range, waitDeletes_query; cbn [rows sort_order]. intros H.
  apply sort_by_create_head in H as [Hin Hmin].
  apply filter_In in Hin as [Hin Hr].
  unfold in_range in Hr; cbn in Hr. apply andb_prop in Hr as [Hp Hb].
  apply Z.leb_le in Hb. repeat split; try assumption.
  intros kv Hkv Hpk Hbk.
  assert (Hf : In kv (filter (in_range
                 (mkRangeRequest (getPrefix e) (Some b) Ascend)) (kvs s))).
  { apply filter_In. split; [assumption|].
    unfold in_range; cbn. rewrite Hpk. now apply Z.leb_le. }
  specialize (Hmin kv Hf). cbn in Hmin. lia.
Qed.

(** X4.  When the answer to the query of [waitDeletes b] has rows, the
    call watches the key of the record created first among those under
    the prefix with creation revision at most [b], from the revision the
    store had when it answered: that is the watch request it sends and
    the subscription it opens, one more than were open. *)
Theorem waitDeletes_watches_oldest :
  forall (w : World) (i : nat) (b : Z) (between1 between2 : list Action)
         (kv0 : KeyValue),
    task i w = Some (WaitDeletesExec b (waitDeletes_query (election w) b)) ->
    others i between1 = true ->
    others i between2 = true ->
    In kv0 (kvs (store w)) ->
    String.prefix (getPrefix (election w)) (key kv0) = true ->
    create_revision kv0 <= b ->
    let rev := store_revision (store w) in
    let w1 := exec between1 (step (Resume i) w) in
    let w2 := step (Resume i) w1 in
    let w2' := exec between2 w2 in
    let w3 := step (Resume i) w2' in
    exists row,
      In row (kvs (store w))
      /\ String.prefix (getPrefix (election w)) (key row) = true
      /\ create_revision row <= b
      /\ (forall kv, In kv (kvs (store w)) ->
                     String.prefix (getPrefix (election w)) (key kv) = true ->
                     create_revision kv <= b ->
                     create_revision row <= create_revision kv)
      /\ requests w2 = (requests w1 ++ [(i, Watch (key row) rev)])%list
      /\ task i w2 = Some (WaitDeleteCreate b (key row) rev)
      /\ watchers w3 = (watchers w2' ++ [mkWatcher i (key row) rev])%list
      /\ task i w3 = Some (WaitDeleteListen b (List.length (watchers w2'))).
Proof.
  intros w i b between1 between2 kv0 Hi Ho1 Ho2 Hin0 Hp0 Hb0
         rev w1 w2 w2' w3.
  set (q := waitDeletes_query (election w) b) in *.
  set (res := range q (store w)).
  assert (Ht0 : task i (step (Resume i) w) = Some (WaitDeletesThen b res)).
  { cbn [step]. unfold resume. rewrite Hi.
    now apply (resume_at w i _ Hi). }
  destruct (exec_frame between1 _ i _ Ht0 Ho1) as [Ht1 _]. fold w1 in Ht1.
  destruct (rows res) as [|row rest] eqn:Hrows.
  { pose proof (proj1 (waitDeletes_query_empty (election w) b (store w))
                       Hrows kv0 Hin0 Hp0). lia. }
  destruct (waitDeletes_rows (election w) b (store w) row rest Hrows)
    as [Hin [Hp [Hb Hmin]]].
  assert (Hw2 : w2 = waitDelete i b (key row) rev w1).
  { unfold w2; cbn [step]. unfold resume. rewrite Ht1.
    unfold waitDeletes_then. now rewrite Hrows. }
  assert (Ht2 : task i w2 = Some (WaitDeleteCreate b (key row) rev)).
  { rewrite Hw2. unfold waitDelete.
    now apply (resume_at w1 i _ Ht1). }
  destruct (exec_frame between2 _ i _ Ht2 Ho2) as [Ht2' _]. fold w2' in Ht2'.
  assert (Hw3 : w3 = waitDelete_then i b (key row) rev w2').
  { unfold w3; cbn [step]. unfold resume. now rewrite Ht2'. }
  exists row. repeat (split; [assumption|]).
  split; [rewrite Hw2; reflexivity|].
  split; [assumption|].
  split; [rewrite Hw3; reflexivity|].
  rewrite Hw3. unfold waitDelete_then.
  now apply (resume_at w2' i _ Ht2').
Qed.

Lemma waitDeletes_watches_oldest_witness :
  exists row,
    create_revision row <= 3
    /\ task 0 (step (Resume 0) (exec [] (step (Resume 0) two_ahead)))
       = Some (WaitDeleteCreate 3 (key row) (store_revision (store two_ahead)))
    /\ task 0 (step (Resume 0)
                 (exec [CallLeader]
                    (step (Resume 0) (exec [] (step (Resume 0) two_ahead)))))
       = Some (WaitDeleteListen 3
                 (List.length
                    (watchers
                       (exec [CallLeader]
                          (step (Resume 0)
                             (exec [] (step (Resume 0) two_ahead))))))).
Proof.
  assert (Hin : In (mkKeyValue "election/svc/1" "x" 2 (Some 1))
                   (kvs (store two_ahead)))
    by (vm_compute; left; reflexivity).
  assert (Hle : create_revision (mkKeyValue "election/svc/1" "x" 2 (Some 1))
                <= 3) by (cbn; lia).
  destruct (waitDeletes_watches_oldest two_ahead 0 3 [] [CallLeader]
              (mkKeyValue "election/svc/1" "x" 2 (Some 1))
              eq_refl eq_refl eq_refl Hin eq_refl Hle)
    as (row & _ & _ & Hb & _ & _ & Ht2 & _ & Ht3).
  exists row. split; [exact Hb|]. split; [exact Ht2|exact Ht3].
Defined.

Lemma delete_event_exec (x : Watcher) (acts : list Action) (w : World) :
  delete_event x (store w) = true ->
  delete_event x (store (exec acts w)) = true.
Proof.
  revert w; induction acts as [|a acts IH]; intros w H; cbn;
    auto using delete_event_step.
Qed.

Lemma step_watcher_kept (a : Action) (w : World) (n : nat) (x : Watcher) :
  nth_error (watchers w) n = Some x ->
  nth_error (watchers (step a w)) n = Some x.
Proof.
  intros H.
  destruct (step_watchers a w) as [->|[i [m [key [rev [_ [_ ->]]]]]]];
    [assumption|].
  cbn. now apply nth_error_snoc_old.
Qed.

(** X5.  A call listening on a watch stays where it is, on the same
    subscription, along every run at whose end the store has no delete
    event for the watched key at or after the start revision: puts on the
    watched key, deletes of other keys and its own resumptions do not
    wake it. *)
Theorem watch_waits_for_delete :
  forall (acts : list Action) (w : World) (i : nat) (m : Z) (n : nat)
         (x : Watcher),
    task i w = Some (WaitDeleteListen m n) ->
    nth_error (watchers w) n = Some x ->
    delete_event x (store (exec acts w)) = false ->
    task i (exec acts w) = Some (WaitDeleteListen m n)
    /\ nth_error (watchers (exec acts w)) n = Some x.
Proof.
  induction acts as [|a acts IH]; intros w i m n x Hi Hn Hd; cbn in *;
    [now split|].
  assert (Hd0 : delete_event x (store w) = false).
  { destruct (delete_event x (store w)) eqn:E; [|reflexivity].
    apply (delete_event_exec x (a :: acts)) in E. cbn in E. congruence. }
  apply IH; [|now apply step_watcher_kept|assumption].
  destruct (addresses a i) eqn:Ha.
  - destruct a; cbn in Ha; try discriminate;
      apply Nat.eqb_eq in Ha; subst; cbn [step].
    + unfold granted. now rewrite Hi.
    + unfold resume. rewrite Hi. unfold waitDelete_deleted.
      now rewrite Hn, Hd0.
  - now apply step_frame.
Qed.

(** The leader proclaims and the candidate behind the watcher goes; the
    watcher hears nothing it waits for. *)
Lemma watch_waits_for_delete_witness :
  task 0 (exec [OtherPut "election/svc/1" "x2" (Some 1); Resume 0;
                OtherDelete "election/svc/3"; Resume 0] listening_first)
  = Some (WaitDeleteListen 3 0)
  /\ nth_error
       (watchers (exec [OtherPut "election/svc/1" "x2" (Some 1); Resume 0;
                        OtherDelete "election/svc/3"; Resume 0]
                       listening_first)) 0
     = Some (mkWatcher 0 "election/svc/1" 4).
Proof.
  assert (Hd : delete_event (mkWatcher 0 "election/svc/1" 4)
                 (store (exec [OtherPut "election/svc/1" "x2" (Some 1);
                               Resume 0; OtherDelete "election/svc/3";
                               Resume 0] listening_first)) = false)
    by (vm_compute; reflexivity).
  exact (watch_waits_for_delete
           [OtherPut "election/svc/1" "x2" (Some 1); Resume 0;
            OtherDelete "election/svc/3"; Resume 0]
           listening_first 0 3 0 (mkWatcher 0 "election/svc/1" 4)
           eq_refl eq_refl Hd).
Defined.

(** X11.  A call that has entered [waitDeletes b] stays inside the loop
    of [waitDeletes] and [waitDelete] with the bound [b] it started with,
    and every query it has in flight is the one it started with, until it
    is resolved and the campaign ends. *)
Theorem waitDeletes_keeps_bound :
  forall (acts : list Action) (w0 : World) (i : nat) (b : Z),
    task i w0 = Some (WaitDeletesExec b (waitDeletes_query (election w0) b)) ->
    exists pc,
      task i (exec acts w0) = Some pc
      /\ match pc with
         | WaitDeletesExec m q =>
             m = b /\ q = waitDeletes_query (election w0) b
         | WaitDeletesThen m _ | WaitDeleteCreate m _ _
         | WaitDeleteListen m _ => m = b
         | WaitDeletesResolved _ | CampaignDone => True
         | _ => False
         end.
Proof.
  intros acts w0 i b H0.
  destruct (wait_inv_exec (election w0) b acts w0 i eq_refl H0)
    as [pc [Hpc Hinv]].
  exists pc. split; [assumption|].
  destruct pc; cbn in Hinv; try tauto.
Qed.

Lemma waitDeletes_keeps_bound_witness :
  exists pc,
    task 0 (exec [Resume 0; Resume 0; Resume 0; Resume 0;
                  OtherDelete "election/svc/1"; Resume 0] two_ahead) = Some pc
    /\ match pc with
       | WaitDeletesExec m q =>
           m = 3 /\ q = waitDeletes_query (election two_ahead) 3
       | WaitDeletesThen m _ | WaitDeleteCreate m _ _
       | WaitDeleteListen m _ => m = 3
       | WaitDeletesResolved _ | CampaignDone => True
       | _ => False
       end.
Proof.
  exact (waitDeletes_keeps_bound
           [Resume 0; Resume 0; Resume 0; Resume 0;
            OtherDelete "election/svc/1"; Resume 0] two_ahead 0 3 eq_refl).
Defined.

(** ** proclaim and resign on the store *)

Lemma lookup_put_same (k v : string) (l : option Z) (s : Store)
    (kv : KeyValue) :
  lookup k s = Some kv ->
  lookup k (put k v l s) = Some (mkKeyValue k v (create_revision kv) l).
Proof.
  intros H. unfold put. rewrite H. unfold lookup in *. cbn [kvs].
  induction (kvs s) as [|x t IH]; cbn in *; [discriminate|].
  destruct (has_key k x) eqn:E.
  - injection H as <-. unfold has_key at 1. cbn [key].
    now rewrite String.eqb_refl.
  - rewrite E. auto.
Qed.

Lemma lookup_put_other (k k' v : string) (l : option Z) (s : Store) :
  k' <> k -> lookup k' (put k v l s) = lookup k' s.
Proof.
  intros Hne. apply String.eqb_neq in Hne.
  unfold put, lookup. destruct (find (has_key k) (kvs s)); cbn [kvs].
  - induction (kvs s) as [|x t IH]; cbn; [reflexivity|].
    destruct (has_key k x) eqn:E.
    + assert (H1 : has_key k' (mkKeyValue k v (create_revision x) l) = false)
        by (unfold has_key; cbn [key]; now rewrite String.eqb_sym).
      assert (H2 : has_key k' x = false).
      { unfold has_key in *. apply String.eqb_eq in E.
        now rewrite E, String.eqb_sym. }
      rewrite H1, H2. exact IH.
    + destruct (has_key k' x); [reflexivity|exact IH].
  - rewrite find_app. destruct (find (has_key k') (kvs s)); [reflexivity|].
    cbn. unfold has_key. cbn [key]. now rewrite String.eqb_sym, Hne.
Qed.

Lemma lookup_delete_same (k : string) (s : Store) :
  lookup k (delete k s) = None.
Proof.
  unfold delete. destruct (lookup k s) eqn:E; [|assumption].
  unfold lookup. cbn [kvs]. clear E.
  induction (kvs s) as [|x t IH]; cbn; [reflexivity|].
  destruct (has_key k x) eqn:E; cbn; [assumption|]. now rewrite E.
Qed.

Lemma lookup_delete_other (k k' : string) (s : Store) :
  k' <> k -> lookup k' (delete k s) = lookup k' s.
Proof.
  intros Hne. apply String.eqb_neq in Hne.
  unfold delete. destruct (lookup k s); [|reflexivity].
  unfold lookup. cbn [kvs].
  induction (kvs s) as [|x t IH]; cbn; [reflexivity|].
  destruct (has_key k x) eqn:E; cbn.
  - assert (H2 : has_key k' x = false).
    { unfold has_key in *. apply String.eqb_eq in E.
      now rewrite E, String.eqb_sym. }
    rewrite H2. exact IH.
  - destruct (has_key k' x); [reflexivity|exact IH].
Qed.

Lemma spawn_length (pc : Pc) (w : World) :
  List.length (tasks (spawn pc w)) = S (List.length (tasks w)).
Proof. unfold spawn; cbn. rewrite length_app. cbn. lia. Qed.

(** X6.  When the key at [leaderKey] still has [leaderRevision] as its
    creation revision, [proclaim value] resolves, leaves the three fields
    as they are and replaces the value of that one record, whose creation
    revision stays: the conditions for the next proclaim hold again.  The
    store moves on by one revision and every other key is as before. *)
Theorem proclaim_keeps_leadership :
  forall (w : World) (value : string) (leaseId : Z) (key : string) (rev : Z)
         (kv : KeyValue),
    leaderLeaseId (election w) = LeaseOf leaseId ->
    leaderKey (election w) = Some key ->
    leaderRevision (election w) = Some rev ->
    lookup key (store w) = Some kv ->
    create_revision kv = rev ->
    let j := List.length (tasks w) in
    let w3 := exec [CallProclaim value; Resume j; Resume j] w in
    task j w3 = Some (ProclaimDone (Resolved None))
    /\ election w3 = election w
    /\ lookup key (store w3) = Some (mkKeyValue key value rev (Some leaseId))
    /\ store_revision (store w3) = store_revision (store w) + 1
    /\ (forall k', k' <> key -> lookup k' (store w3) = lookup k' (store w)).
Proof.
  intros w value leaseId key rev kv Hl Hk Hr Hkv Hc j w3.
  subst w3. cbn [exec].
  remember (step (CallProclaim value) w) as w1 eqn:E1.
  remember (step (Resume j) w1) as w2 eqn:E2.
  remember (step (Resume j) w2) as w3 eqn:E3.
  set (t := proclaim_txn key rev value leaseId).
  assert (Hw1 : w1 = send j (Commit t) (spawn (ProclaimCommit t) w)).
  { rewrite E1; cbn [step]. unfold proclaim. now rewrite Hl, Hk, Hr. }
  assert (H1 : task j w1 = Some (ProclaimCommit t)).
  { rewrite Hw1. apply (spawn_task (ProclaimCommit t) w). }
  assert (Hcm : commit t (store w1)
                = (put key value (Some leaseId) (store w),
                   mkTxnResponse true (mkHeader (store_revision (store w) + 1))
                                 [PutResponse])).
  { replace (store w1) with (store w) by (rewrite Hw1; reflexivity).
    unfold t. rewrite (proclaim_commit key value rev leaseId (store w) kv Hkv).
    now rewrite Hc, Z.eqb_refl. }
  assert (Hw2 : w2 = set_task j (ProclaimThen
                        (mkTxnResponse true
                           (mkHeader (store_revision (store w) + 1))
                           [PutResponse]))
                       (set_store (put key value (Some leaseId) (store w)) w1)).
  { rewrite E2; cbn [step]. unfold resume. rewrite H1.
    rewrite (proj1 (answer_commit_at t _ j w1 _ H1)). now rewrite Hcm. }
  assert (H2 : task j w2
               = Some (ProclaimThen
                         (mkTxnResponse true
                            (mkHeader (store_revision (store w) + 1))
                            [PutResponse]))).
  { rewrite Hw2. now apply (resume_at w1 j _ H1). }
  assert (Hw3 : w3 = set_task j (ProclaimDone (Resolved None)) w2).
  { rewrite E3; cbn [step]. unfold resume. now rewrite H2. }
  assert (Hs3 : store w3 = put key value (Some leaseId) (store w))
    by (rewrite Hw3, Hw2; reflexivity).
  split; [rewrite Hw3; now apply (resume_at w2 j _ H2)|].
  split; [rewrite Hw3, Hw2, Hw1; reflexivity|].
  rewrite Hs3. split; [|split].
  - rewrite (lookup_put_same key value (Some leaseId) (store w) kv Hkv).
    now rewrite Hc.
  - unfold put. now rewrite Hkv.
  - intros k' Hne. now apply lookup_put_other.
Qed.

Lemma proclaim_keeps_leadership_witness :
  task (List.length (tasks leading))
       (exec [CallProclaim "z"; Resume (List.length (tasks leading));
              Resume (List.length (tasks leading))] leading)
  = Some (ProclaimDone (Resolved None))
  /\ lookup "election/svc/2"
            (store (exec [CallProclaim "z";
                          Resume (List.length (tasks leading));
                          Resume (List.length (tasks leading))] leading))
     = Some (mkKeyValue "election/svc/2" "z" 3 (Some 2)).
Proof.
  destruct (proclaim_keeps_leadership leading "z" 2 "election/svc/2" 3
              (mkKeyValue "election/svc/2" "y" 3 (Some 2))
              eq_refl eq_refl eq_refl eq_refl eq_refl)
    as (H1 & _ & H3 & _).
  split; [exact H1|exact H3].
Defined.

(** X7.  The commit of [resign()] touches no key but [leaderKey]: every
    other key reads as before; [leaderKey] is gone afterwards when its
    creation revision was [leaderRevision], and the store is not changed
    at all when it was not. *)
Theorem resign_removes_only_its_key :
  forall (w : World) (leaseId : Z) (key : string) (rev : Z),
    leaderLeaseId (election w) = LeaseOf leaseId ->
    leaderKey (election w) = Some key ->
    leaderRevision (election w) = Some rev ->
    let j := List.length (tasks w) in
    let w2 := exec [CallResign; Resume j] w in
    (forall k', k' <> key -> lookup k' (store w2) = lookup k' (store w))
    /\ (create_revision_of key (store w) = rev ->
        lookup key (store w2) = None)
    /\ (create_revision_of key (store w) <> rev -> store w2 = store w).
Proof.
  intros w leaseId key rev Hl Hk Hr j w2.
  subst w2. cbn [exec].
  remember (step CallResign w) as w1 eqn:E1.
  remember (step (Resume j) w1) as w2 eqn:E2.
  set (t := resign_txn key rev).
  assert (Hw1 : w1 = send j (Commit t) (spawn (ResignCommit t) w)).
  { rewrite E1; cbn [step]. unfold resign. now rewrite Hl, Hk, Hr. }
  assert (H1 : task j w1 = Some (ResignCommit t)).
  { rewrite Hw1. apply (spawn_task (ResignCommit t) w). }
  assert (Hs2 : store w2 = fst (commit t (store w))).
  { rewrite E2; cbn [step]. unfold resume. rewrite H1.
    rewrite (proj1 (answer_commit_at t _ j w1 _ H1)).
    rewrite Hw1. reflexivity. }
  rewrite Hs2, commit_store, commit_succeeded.
  cbn [t resign_txn if_key if_create_eq then_op else_op].
  destruct (Z.eqb (create_revision_of key (store w)) rev) eqn:E;
    cbn [apply_op fst].
  - split; [intros k' Hne; now apply lookup_delete_other|].
    split; [intros _; apply lookup_delete_same|].
    apply Z.eqb_eq in E. congruence.
  - split; [reflexivity|].
    apply Z.eqb_neq in E. split; [congruence|reflexivity].
Qed.

Lemma resign_removes_only_its_key_witness :
  lookup "election/svc/2"
         (store (exec [CallResign; Resume (List.length (tasks leading))]
                      leading)) = None.
Proof.
  destruct (resign_removes_only_its_key leading 2 "election/svc/2" 3
              eq_refl eq_refl eq_refl) as (_ & H2 & _).
  exact (H2 eq_refl).
Defined.

(** X8.  Once a [resign()] has resolved, the instance is out: a
    [proclaim] throws NotLeader at once and a second [resign] returns at
    once, neither sending a request, touching the store or, for the
    resign, emitting an event. *)
Theorem resign_then_not_leader :
  forall (w : World) (leaseId : Z) (key : string) (rev : Z) (value : string),
    leaderLeaseId (election w) = LeaseOf leaseId ->
    leaderKey (election w) = Some key ->
    leaderRevision (election w) = Some rev ->
    let j := List.length (tasks w) in
    let w3 := exec [CallResign; Resume j; Resume j] w in
    task j w3 = Some (ResignDone (Resolved None))
    /\ task (S j) (step (CallProclaim value) w3)
       = Some (ProclaimDone (Threw EtcdElectionNotLeaderError))
    /\ requests (step (CallProclaim value) w3) = requests w3
    /\ store (step (CallProclaim value) w3) = store w3
    /\ task (S j) (step CallResign w3) = Some (ResignDone Returned)
    /\ requests (step CallResign w3) = requests w3
    /\ emitted (step CallResign w3) = emitted w3
    /\ store (step CallResign w3) = store w3.
Proof.
  intros w leaseId key rev value Hl Hk Hr j w3.
  subst w3. cbn [exec].
  remember (step CallResign w) as w1 eqn:E1.
  remember (step (Resume j) w1) as w2 eqn:E2.
  remember (step (Resume j) w2) as w3 eqn:E3.
  set (t := resign_txn key rev).
  assert (Hw1 : w1 = send j (Commit t) (spawn (ResignCommit t) w)).
  { rewrite E1; cbn [step]. unfold resign. now rewrite Hl, Hk, Hr. }
  assert (H1 : task j w1 = Some (ResignCommit t)).
  { rewrite Hw1. apply (spawn_task (ResignCommit t) w). }
  assert (Hn1 : List.length (tasks w1) = S j).
  { rewrite Hw1. apply spawn_length. }
  destruct (answer_commit_at t ResignThen j w1 _ H1) as [Ha H2].
  assert (Hw2 : w2 = answer_commit t ResignThen j w1).
  { rewrite E2; cbn [step]. unfold resume. now rewrite H1. }
  rewrite <- Hw2 in Ha, H2.
  assert (Hw3 : w3 = resign_then j (snd (commit t (store w1))) w2).
  { rewrite E3; cbn [step]. unfold resume. now rewrite H2. }
  assert (H3 : task j w3 = Some (ResignDone (Resolved None))).
  { rewrite Hw3. unfold resign_then.
    unfold task, set_task, set_election, emit; cbn [tasks].
    apply nth_error_set_nth_eq. eapply nth_error_lt. exact H2. }
  assert (Hn3 : List.length (tasks w3) = S j).
  { rewrite Hw3. unfold resign_then, set_task, set_election, emit;
      cbn [tasks].
    rewrite length_set_nth, Ha. unfold set_task, set_store; cbn [tasks].
    now rewrite length_set_nth. }
  assert (Hl3 : leaderLeaseId (election w3) = LeaseNull)
    by (rewrite Hw3; reflexivity).
  split; [assumption|].
  cbn [step]. unfold proclaim, resign. rewrite Hl3, <- Hn3.
  repeat split; apply spawn_task.
Qed.

Lemma resign_then_not_leader_witness :
  task (S (List.length (tasks leading)))
       (step (CallProclaim "z")
             (exec [CallResign; Resume (List.length (tasks leading));
                    Resume (List.length (tasks leading))] leading))
  = Some (ProclaimDone (Threw EtcdElectionNotLeaderError))
  /\ task (S (List.length (tasks leading)))
          (step CallResign
                (exec [CallResign; Resume (List.length (tasks leading));
                       Resume (List.length (tasks leading))] leading))
     = Some (ResignDone Returned).
Proof.
  destruct (resign_then_not_leader leading 2 "election/svc/2" 3 "z"
              eq_refl eq_refl eq_refl)
    as (_ & H2 & _ & _ & H5 & _).
  split; [exact H2|exact H5].
Defined.

(** ** leader and a fresh candidate *)

(** X9.  As soon as the commit of a campaign has created its key,
    [leader()] resolves with that campaign's value, whatever keys were
    under the prefix before: the first row of the descending query is the
    record created last.  The campaign itself has not been elected; its
    callback has not even run. *)
Theorem leader_names_newest_candidate :
  forall (w : World) (i : nat) (value : string) (leaseId : Z),
    task i w = Some (CampaignGrant value) ->
    store_wf (store w) ->
    lookup (getKey (election w) leaseId) (store w) = None ->
    let j := List.length (tasks w) in
    let w' := exec [Granted i leaseId; Resume i; CallLeader;
                    Resume j; Resume j] w in
    task j w' = Some (LeaderDone (Resolved (Some value)))
    /\ emitted w' = emitted w
    /\ exists res, task i w' = Some (CampaignThen (getKey (election w) leaseId)
                                                  value leaseId res).
Proof.
  intros w i value leaseId Hi Hwf Hl j w'.
  set (key := getKey (election w) leaseId) in *.
  set (rev := store_revision (store w) + 1).
  set (kv := mkKeyValue key value rev (Some leaseId)).
  set (s' := mkStore (kvs (store w) ++ [kv]) rev (deleted (store w))).
  set (res := mkTxnResponse true (mkHeader rev) [PutResponse]).
  set (t := campaign_txn key value leaseId).
  assert (Hcm : commit t (store w) = (s', res))
    by apply (create_commit key value leaseId (store w) Hl).
  subst w'. cbn [exec].
  remember (step (Granted i leaseId) w) as w1 eqn:E1.
  remember (step (Resume i) w1) as w2 eqn:E2.
  remember (step CallLeader w2) as w3 eqn:E3.
  remember (step (Resume j) w3) as w4 eqn:E4.
  remember (step (Resume j) w4) as w5 eqn:E5.
  pose proof (nth_error_lt _ _ _ Hi) as Hlt.
  assert (Hw1 : w1 = set_task i (CampaignCommit key value leaseId t)
                              (send i (Commit t) w)).
  { rewrite E1; cbn [step]. unfold granted. now rewrite Hi. }
  assert (H1 : task i w1 = Some (CampaignCommit key value leaseId t)).
  { rewrite Hw1. now apply (resume_at w i _ Hi). }
  assert (Hw2 : w2 = set_task i (CampaignThen key value leaseId res)
                              (set_store s' w1)).
  { rewrite E2; cbn [step]. unfold resume. rewrite H1.
    rewrite (proj1 (answer_commit_at t _ i w1 _ H1)).
    replace (store w1) with (store w) by (rewrite Hw1; reflexivity).
    now rewrite Hcm. }
  assert (H2 : task i w2 = Some (CampaignThen key value leaseId res)).
  { rewrite Hw2. now apply (resume_at w1 i _ H1). }
  assert (Hn2 : List.length (tasks w2) = j).
  { rewrite Hw2, Hw1. unfold set_task, set_store, send; cbn [tasks].
    now rewrite !length_set_nth. }
  set (q := leader_query (election w)).
  assert (Hw3 : w3 = send j (Range q) (spawn (LeaderExec q) w2)).
  { rewrite E3; cbn [step]. unfold leader. rewrite Hn2.
    replace (election w2) with (election w)
      by (rewrite Hw2, Hw1; reflexivity).
    reflexivity. }
  assert (H3 : task j w3 = Some (LeaderExec q)).
  { rewrite Hw3, <- Hn2. apply (spawn_task (LeaderExec q) w2). }
  assert (H3i : task i w3 = Some (CampaignThen key value leaseId res)).
  { rewrite E3. now apply step_frame. }
  assert (Hw4 : w4 = set_task j (LeaderThen (range q s')) w3).
  { rewrite E4; cbn [step]. unfold resume. rewrite H3.
    replace (store w3) with s' by (rewrite Hw3, Hw2; reflexivity).
    reflexivity. }
  assert (H4 : task j w4 = Some (LeaderThen (range q s'))).
  { rewrite Hw4. now apply (resume_at w3 j _ H3). }
  assert (Hw5 : w5 = leader_then j (range q s') w4).
  { rewrite E5; cbn [step]. unfold resume. now rewrite H4. }
  (* the first row is the record just created *)
  assert (Hkv : In kv (kvs s')) by (apply in_or_app; right; now left).
  assert (Hpk : String.prefix (getPrefix (election w)) (Etcd.key kv) = true)
    by apply getKey_under_prefix.
  destruct (leader_rows (election w) s') as [Hnil Hhead]. fold q in Hnil, Hhead.
  destruct (rows (range q s')) as [|row rest] eqn:Hrows.
  { rewrite (proj1 Hnil eq_refl kv Hkv) in Hpk. discriminate. }
  destruct (Hhead row rest eq_refl) as [Hin [Hp Hmax]].
  assert (Hrow : row = kv).
  { apply in_app_or in Hin as [Hin|[<-|[]]]; [|reflexivity].
    specialize (Hmax kv Hkv Hpk). cbn [create_revision kv] in Hmax.
    destruct Hwf as [_ Hwf]. specialize (Hwf row Hin). unfold rev in Hmax.
    lia. }
  assert (Hji : j <> i) by lia.
  split; [|split].
  - rewrite Hw5. unfold leader_then. rewrite Hrows, Hrow.
    now apply (resume_at w4 j _ H4).
  - rewrite Hw5. unfold leader_then. rewrite Hrows.
    rewrite Hw4, Hw3, Hw2, Hw1. reflexivity.
  - exists res. rewrite E5, E4.
    apply step_frame; [apply step_frame; [assumption|]|];
      cbn; now apply Nat.eqb_neq.
Qed.

(** A holds the election with value x; B's key has just been created; the
    leader read is y. *)
Lemma leader_names_newest_candidate_witness :
  task (List.length (tasks granting))
       (exec [Granted 0 2; Resume 0; CallLeader;
              Resume (List.length (tasks granting));
              Resume (List.length (tasks granting))] granting)
  = Some (LeaderDone (Resolved (Some "y")))
  /\ emitted (exec [Granted 0 2; Resume 0; CallLeader;
                    Resume (List.length (tasks granting));
                    Resume (List.length (tasks granting))] granting)
     = emitted granting.
Proof.
  assert (Hwf : store_wf (store granting))
    by (apply store_wf_exec, store_wf_empty).
  destruct (leader_names_newest_candidate granting 0 "y" 2
              eq_refl Hwf eq_refl) as (H1 & H2 & _).
  split; [exact H1|exact H2].
Defined.



(** ** Requests stay inside the election *)

Lemma Forall_set_nth {A : Type} (P : A -> Prop) (n : nat) (x : A)
    (l : list A) :
  Forall P l -> P x -> Forall P (set_nth n x l).
Proof.
  intros Hl Hx. revert n; induction Hl as [|y l Hy Hl IH]; intros [|n];
    cbn; constructor; auto.
Qed.

Lemma Forall_snoc {A : Type} (P : A -> Prop) (x : A) (l : list A) :
  Forall P l -> P x -> Forall P (l ++ [x]).
Proof.
  intros Hl Hx. apply Forall_app. split; [assumption|]. now constructor.
Qed.

Lemma Forall_task {A : Type} (P : A -> Prop) (n : nat) (x : A) (l : list A) :
  Forall P l -> nth_error l n = Some x -> P x.
Proof.
  intros Hl Hn. rewrite Forall_forall in Hl. apply Hl.
  eapply nth_error_In; eassumption.
Qed.

Lemma range_rows_under_prefix (q : RangeRequest) (s : Store) (row : KeyValue) :
  In row (rows (range q s)) ->
  String.prefix (range_prefix q) (key row) = true.
Proof.
  unfold range; cbn [rows]. intros H. apply sort_by_create_In in H.
  apply filter_In in H as [_ H]. unfold in_range in H.
  now apply andb_prop in H as [H _].
Qed.

Section Within.

Variable p : string.

Lemma within_send (i : nat) (r : Request) (w : World) :
  within p w -> request_within p r -> within p (send i r w).
Proof.
  intros (Hp & Hk & Hr & Ht) H. repeat split; try assumption.
  now apply Forall_snoc.
Qed.

Lemma within_spawn (pc : Pc) (w : World) :
  within p w -> pc_within p pc -> within p (spawn pc w).
Proof.
  intros (Hp & Hk & Hr & Ht) H. repeat split; try assumption.
  now apply Forall_snoc.
Qed.

Lemma within_set_task (i : nat) (pc : Pc) (w : World) :
  within p w -> pc_within p pc -> within p (set_task i pc w).
Proof.
  intros (Hp & Hk & Hr & Ht) H. repeat split; try assumption.
  now apply Forall_set_nth.
Qed.

Lemma within_set_store (s : Store) (w : World) :
  within p w -> within p (set_store s w).
Proof. intros (Hp & Hk & Hr & Ht). now repeat split. Qed.

Lemma within_emit (ev : Event) (w : World) :
  within p w -> within p (emit ev w).
Proof. intros (Hp & Hk & Hr & Ht). now repeat split. Qed.

Lemma within_open_watcher (x : Watcher) (w : World) :
  within p w -> within p (open_watcher x w).
Proof. intros (Hp & Hk & Hr & Ht). now repeat split. Qed.

Lemma within_set_election (e : Election) (w : World) :
  within p w -> keyPrefix e = keyPrefix (election w) ->
  (forall k, leaderKey e = Some k -> own_key p k) ->
  within p (set_election e w).
Proof.
  intros (Hp & Hk & Hr & Ht) He H. repeat split; try assumption.
  cbn [election set_election]. unfold getPrefix in *. now rewrite He.
Qed.

Lemma within_step (a : Action) (w : World) :
  within p w -> within p (step a w).
Proof.
  intros Hw. pose proof Hw as (Hp & Hk & Hr & Ht).
  assert (Hpc : forall i pc, task i w = Some pc -> pc_within p pc).
  { intros i pc Hi. exact (Forall_task _ i pc _ Ht Hi). }
  destruct a; cbn [step].
  - (* campaign *)
    apply within_send; [apply within_spawn|]; cbn; auto.
  - (* proclaim *)
    unfold proclaim.
    destruct (leaderLeaseId (election w)) as [| |l];
      try (apply within_spawn; [assumption|exact I]).
    destruct (leaderKey (election w)) as [k|] eqn:Ek;
      [destruct (leaderRevision (election w)) as [r|]|];
      try (apply within_spawn; [assumption|exact I]).
    apply within_send; [apply within_spawn; [assumption|exact I]|].
    cbn. auto.
  - (* resign *)
    unfold resign.
    destruct (leaderLeaseId (election w)) as [| |l];
      try (apply within_spawn; [assumption|exact I]).
    destruct (leaderKey (election w)) as [k|] eqn:Ek;
      [destruct (leaderRevision (election w)) as [r|]|];
      try (apply within_spawn; [assumption|exact I]).
    apply within_send; [apply within_spawn; [assumption|exact I]|].
    cbn. auto.
  - (* leader *)
    apply within_send; [apply within_spawn; [assumption|exact I]|].
    exact Hp.
  - (* the lease is granted *)
    unfold granted. destruct (task i w) as [[]|] eqn:Hi; try assumption.
    assert (Hown : own_key p (getKey (election w) leaseId)).
    { right. rewrite <- Hp. apply getKey_under_prefix. }
    apply within_set_task; [apply within_send; [assumption|]|]; cbn; auto.
  - (* a call resumes *)
    unfold resume. destruct (task i w) as [pc|] eqn:Hi; [|assumption].
    specialize (Hpc i pc Hi).
    destruct pc as [v|k v l t|k v l res|m q|m res|m k r|m n|h|
                    |t|res|o|t|res|o|q|res|o];
      try assumption; cbn [pc_within] in Hpc.
    + unfold answer_commit. destruct (commit t (store w)).
      apply within_set_task; [now apply within_set_store|exact Hpc].
    + unfold campaign_then, waitDeletes.
      assert (Hw' : within p (set_election
                      (mkElection (keyPrefix (election w))
                         (timeout (election w)) (Some k)
                         (Some (revision (header res))) (LeaseOf l)) w)).
      { apply within_set_election; [assumption|reflexivity|].
        cbn. now intros k' [= <-]. }
      apply within_set_task; [apply within_send; [assumption|]|];
        exact (proj1 Hw').
    + apply within_set_task; [assumption|].
      intros row Hrow. apply range_rows_under_prefix in Hrow.
      cbn in Hpc. now rewrite Hpc in Hrow.
    + unfold waitDeletes_then. destruct (rows res) as [|kv rest] eqn:Hrows.
      * apply within_set_task; [assumption|exact I].
      * unfold waitDelete.
        apply within_set_task; [apply within_send; [assumption|]|exact I].
        apply Hpc. now left.
    + unfold waitDelete_then.
      apply within_set_task; [now apply within_open_watcher|exact I].
    + unfold waitDelete_deleted.
      destruct (nth_error (watchers w) n) as [x|];
        [destruct (delete_event x (store w))|]; try assumption.
      unfold waitDeletes.
      apply within_set_task; [apply within_send; [assumption|]|]; exact Hp.
    + unfold campaign_elected.
      apply within_set_task; [|exact I].
      destruct (leaderKey_not_empty (election w));
        [now apply within_emit|assumption].
    + unfold answer_commit. destruct (commit t (store w)).
      apply within_set_task; [now apply within_set_store|exact I].
    + unfold proclaim_then. destruct (succeeded res);
        apply within_set_task; try exact I; try assumption.
      apply within_set_election; [assumption|reflexivity|].
      cbn. intros k [= <-]. now left.
    + unfold answer_commit. destruct (commit t (store w)).
      apply within_set_task; [now apply within_set_store|exact I].
    + unfold resign_then. apply within_set_task; [|exact I].
      apply within_set_election; [now apply within_emit|reflexivity|].
      cbn. intros k [= <-]. now left.
    + apply within_set_task; [assumption|exact I].
    + unfold leader_then.
      destruct (rows res); apply within_set_task; try assumption; exact I.
  - now apply within_set_store.
  - now apply within_set_store.
Qed.

Lemma within_exec (acts : list Action) (w : World) :
  within p w -> within p (exec acts w).
Proof.
  revert w; induction acts as [|a acts IH]; intros w H; cbn;
    auto using within_step.
Qed.

End Within.

(** X10.  Whatever is called on a new instance and however the calls
    interleave, every request it sends stays inside the election: a commit
    compares and touches one key, which lies under [getPrefix] or is the
    empty string left by a resign or a failed proclaim; every range query
    is over [getPrefix]; every watch is on a key under [getPrefix]. *)
Theorem requests_stay_under_prefix :
  forall (prefix : string) (t : option Z) (s : Store) (acts : list Action)
         (i : nat) (r : Request),
    In (i, r) (requests (exec acts (newWorld (newElection prefix t) s))) ->
    request_within (getPrefix (newElection prefix t)) r.
Proof.
  intros prefix t s acts i r Hin.
  assert (H : within (getPrefix (newElection prefix t))
                     (exec acts (newWorld (newElection prefix t) s))).
  { apply within_exec. split; [reflexivity|].
    split; [intros k [=]|]. split; constructor. }
  destruct H as (_ & _ & Hr & _). rewrite Forall_forall in Hr.
  exact (Hr (i, r) Hin).
Qed.

Lemma requests_stay_under_prefix_witness :
  request_within (getPrefix (newElection "svc" None))
    (Commit (mkTxn "election/svc/2" 0
               (Some (OpPut "election/svc/2" "y" (Some 2)))
               (Some (OpGet "election/svc/2")))).
Proof.
  assert (Hin : In (0%nat,
                    Commit (mkTxn "election/svc/2" 0
                              (Some (OpPut "election/svc/2" "y" (Some 2)))
                              (Some (OpGet "election/svc/2"))))
                   (requests (exec scenario
                                (newWorld (newElection "svc" None)
                                          emptyStore))))
    by (vm_compute; right; left; reflexivity).
  exact (requests_stay_under_prefix "svc" None emptyStore scenario 0
           _ Hin).
Defined.

(** ** Events and finished calls *)

Lemma count_snoc {A : Type} (f : A -> bool) (x : A) (l : list A) :
  count f (l ++ [x]) = (count f l + (if f x then 1 else 0))%nat.
Proof.
  unfold count. rewrite filter_app, length_app. cbn.
  now destruct (f x).
Qed.

Lemma count_set_nth {A : Type} (f : A -> bool) (n : nat) (x old : A)
    (l : list A) :
  nth_error l n = Some old ->
  (count f (set_nth n x l) + (if f old then 1 else 0)
   = count f l + (if f x then 1 else 0))%nat.
Proof.
  unfold count. revert n; induction l as [|y l IH]; intros [|n] H; cbn in *;
    try discriminate.
  - injection H as ->. destruct (f x), (f old); cbn; lia.
  - specialize (IH n H). destruct (f y); cbn; lia.
Qed.

(** Events emitted and calls finished, as numbers. *)
Ltac tally Hi :=
  unfold set_task, set_store, send, spawn, emit, set_election, open_watcher;
  cbn [tasks emitted];
  rewrite ?count_snoc;
  repeat match goal with
         | |- context [count ?f (set_nth ?i ?x ?l)] =>
             let H := fresh in
             pose proof (count_set_nth f i x _ l Hi) as H;
             cbn [campaign_done resign_resolved] in H;
             generalize dependent (count f (set_nth i x l)); intros
         end;
  cbn [is_elected is_resigned campaign_done resign_resolved]; lia.

Lemma tally_step (a : Action) (w : World) :
  (count is_elected (emitted (step a w)) + count campaign_done (tasks w)
   <= count is_elected (emitted w) + count campaign_done (tasks (step a w)))%nat
  /\ (count is_resigned (emitted (step a w)) + count resign_resolved (tasks w)
      = count is_resigned (emitted w)
        + count resign_resolved (tasks (step a w)))%nat.
Proof.
  destruct a; cbn [step].
  - unfold campaign. split; tally I.
  - unfold proclaim.
    destruct (leaderLeaseId (election w)) as [| |l];
      [| |destruct (leaderKey (election w)) as [k|];
          [destruct (leaderRevision (election w)) as [r|]|]];
      split; tally I.
  - unfold resign.
    destruct (leaderLeaseId (election w)) as [| |l];
      [| |destruct (leaderKey (election w)) as [k|];
          [destruct (leaderRevision (election w)) as [r|]|]];
      split; tally I.
  - unfold leader. split; tally I.
  - unfold granted. destruct (task i w) as [pc|] eqn:Hi; [|split; lia].
    unfold task in Hi.
    destruct pc as [v|k v l t|k v l res|m q|m res|m k r|m n|h|
                    |t|res|o|t|res|o|q|res|o]; try (split; lia).
    unfold campaign_granted. split; tally Hi.
  - unfold resume. destruct (task i w) as [pc|] eqn:Hi; [|split; lia].
    unfold task in Hi.
    destruct pc as [v|k v l t|k v l res|m q|m res|m k r|m n|h|
                    |t|res|o|t|res|o|q|res|o]; try (split; lia).
    + unfold answer_commit. destruct (commit t (store w)). split; tally Hi.
    + unfold campaign_then, waitDeletes. split; tally Hi.
    + split; tally Hi.
    + unfold waitDeletes_then, waitDelete. destruct (rows res);
        split; tally Hi.
    + unfold waitDelete_then. split; tally Hi.
    + unfold waitDelete_deleted, waitDeletes.
      destruct (nth_error (watchers w) n) as [x|];
        [destruct (delete_event x (store w))|]; split; try lia; tally Hi.
    + unfold campaign_elected.
      destruct (leaderKey_not_empty (election w)); split; tally Hi.
    + unfold answer_commit. destruct (commit t (store w)). split; tally Hi.
    + unfold proclaim_then. destruct (succeeded res); split; tally Hi.
    + unfold answer_commit. destruct (commit t (store w)). split; tally Hi.
    + unfold resign_then. split; tally Hi.
    + split; tally Hi.
    + unfold leader_then. destruct (rows res); split; tally Hi.
  - split; tally I.
  - split; tally I.
Qed.

(** X12.  Along any run, "elected" is emitted at most as many times as
    campaigns have finished, and "resigned" exactly as many times as
    resigns have resolved: a campaign fires "elected" at most once, a
    resolved resign fires "resigned" once, and nothing else emits
    either. *)
Theorem events_match_finished_calls :
  forall (acts : list Action) (w : World),
    (count is_elected (emitted (exec acts w)) + count campaign_done (tasks w)
     <= count is_elected (emitted w)
        + count campaign_done (tasks (exec acts w)))%nat
    /\ (count is_resigned (emitted (exec acts w))
        + count resign_resolved (tasks w)
        = count is_resigned (emitted w)
          + count resign_resolved (tasks (exec acts w)))%nat.
Proof.
  induction acts as [|a acts IH]; intros w; cbn [exec]; [split; lia|].
  destruct (IH (step a w)) as [H1 H2].
  destruct (tally_step a w) as [S1 S2].
  split; lia.
Qed.

(** ** The last predecessor goes *)

Lemma delete_kvs (k : string) (s : Store) (kv : KeyValue) :
  In kv (kvs (delete k s)) -> In kv (kvs s) /\ key kv <> k.
Proof.
  unfold delete. destruct (lookup k s) as [x|] eqn:E.
  - cbn [kvs]. intros H. apply filter_In in H as [Hin Hk].
    split; [assumption|]. apply negb_true_iff in Hk.
    now apply String.eqb_neq.
  - intros H. split; [assumption|]. intros Hk.
    unfold lookup in E. apply (find_none _ _ E) in H.
    unfold has_key in H. rewrite Hk, String.eqb_refl in H. discriminate.
Qed.

Lemma delete_leaves_event (k : string) (s : Store) (kv : KeyValue)
    (x : Watcher) :
  lookup k s = Some kv -> watch_key x = k ->
  start_revision x <= store_revision s + 1 ->
  delete_event x (delete k s) = true.
Proof.
  intros Hl Hk Hs. unfold delete, delete_event. rewrite Hl.
  cbn [deleted existsb fst snd]. rewrite Hk, String.eqb_refl.
  apply Z.leb_le in Hs. now rewrite Hs.
Qed.

(** X13.  A campaign listening on the key of its last predecessor is
    elected once that key is deleted: the delete event wakes the call, the
    query it repeats is empty, and "elected" is emitted, provided
    [leaderKey] has not been emptied meanwhile.  No further subscription
    is opened. *)
Theorem last_predecessor_gone_elects :
  forall (w : World) (i : nat) (m : Z) (n : nat) (x : Watcher)
         (k : string) (kv0 : KeyValue),
    task i w = Some (WaitDeleteListen m n) ->
    nth_error (watchers w) n = Some x ->
    watch_key x = k ->
    start_revision x <= store_revision (store w) + 1 ->
    lookup k (store w) = Some kv0 ->
    (forall kv, In kv (kvs (store w)) -> key kv <> k ->
                String.prefix (getPrefix (election w)) (key kv) = true ->
                m < create_revision kv) ->
    leaderKey_not_empty (election w) = true ->
    let w' := exec [OtherDelete k; Resume i; Resume i; Resume i; Resume i] w in
    task i w' = Some CampaignDone
    /\ emitted w' = (emitted w ++ [elected])%list
    /\ watchers w' = watchers w
    /\ lookup k (store w') = None.
Proof.
  intros w i m n x k kv0 Hi Hn Hk Hs Hl Hrest Hne w'.
  subst w'. cbn [exec].
  remember (step (OtherDelete k) w) as w1 eqn:E1.
  remember (step (Resume i) w1) as w2 eqn:E2.
  remember (step (Resume i) w2) as w3 eqn:E3.
  remember (step (Resume i) w3) as w4 eqn:E4.
  remember (step (Resume i) w4) as w5 eqn:E5.
  set (s' := delete k (store w)).
  set (q := waitDeletes_query (election w) m).
  assert (Hw1 : w1 = set_store s' w) by (rewrite E1; reflexivity).
  assert (H1 : task i w1 = Some (WaitDeleteListen m n))
    by (rewrite Hw1; exact Hi).
  assert (Hev : delete_event x s' = true)
    by (apply (delete_leaves_event k (store w) kv0 x); assumption).
  assert (Hw2 : w2 = waitDeletes i m w1).
  { rewrite E2; cbn [step]. unfold resume. rewrite H1.
    unfold waitDelete_deleted.
    replace (watchers w1) with (watchers w) by (rewrite Hw1; reflexivity).
    replace (store w1) with s' by (rewrite Hw1; reflexivity).
    now rewrite Hn, Hev. }
  assert (H2 : task i w2 = Some (WaitDeletesExec m q)).
  { rewrite Hw2. unfold waitDeletes.
    rewrite (proj2 (resume_at w1 i _ H1)) by reflexivity.
    rewrite Hw1. reflexivity. }
  assert (Hs2 : store w2 = s') by (rewrite Hw2, Hw1; reflexivity).
  assert (Hrows : rows (range q s') = []).
  { apply waitDeletes_query_empty. intros kv Hin Hp.
    apply delete_kvs in Hin as [Hin Hkk]. now apply Hrest. }
  assert (Hw3 : w3 = set_task i (WaitDeletesThen m (range q s')) w2).
  { rewrite E3; cbn [step]. unfold resume. now rewrite H2, Hs2. }
  assert (H3 : task i w3 = Some (WaitDeletesThen m (range q s'))).
  { rewrite Hw3. now apply (resume_at w2 i _ H2). }
  assert (Hw4 : w4 = set_task i (WaitDeletesResolved (range_header (range q s')))
                              w3).
  { rewrite E4; cbn [step]. unfold resume. rewrite H3.
    unfold waitDeletes_then. now rewrite Hrows. }
  assert (H4 : task i w4
               = Some (WaitDeletesResolved (range_header (range q s')))).
  { rewrite Hw4. now apply (resume_at w3 i _ H3). }
  assert (Hw5 : w5 = set_task i CampaignDone (emit elected w4)).
  { rewrite E5; cbn [step]. unfold resume. rewrite H4.
    unfold campaign_elected.
    replace (election w4) with (election w)
      by (rewrite Hw4, Hw3, Hw2, Hw1; reflexivity).
    now rewrite Hne. }
  split; [rewrite Hw5; now apply (resume_at w4 i _ H4)|].
  split; [rewrite Hw5, Hw4, Hw3, Hw2, Hw1; reflexivity|].
  split; [rewrite Hw5, Hw4, Hw3, Hw2, Hw1; reflexivity|].
  replace (store w5) with s'
    by (rewrite Hw5, Hw4, Hw3; symmetry; exact Hs2).
  apply lookup_delete_same.
Qed.

Lemma last_predecessor_gone_elects_witness :
  task 0 (exec [OtherDelete "election/svc/1"; Resume 0; Resume 0; Resume 0;
                Resume 0] behind_one) = Some CampaignDone
  /\ emitted (exec [OtherDelete "election/svc/1"; Resume 0; Resume 0;
                    Resume 0; Resume 0] behind_one)
     = (emitted behind_one ++ [elected])%list.
Proof.
  assert (Hrest : forall kv, In kv (kvs (store behind_one)) ->
                    key kv <> "election/svc/1" ->
                    String.prefix (getPrefix (election behind_one)) (key kv)
                    = true ->
                    2 < create_revision kv).
  { intros kv Hin Hk _. vm_compute in Hin.
    destruct Hin as [<-|[<-|[]]]; [now elim Hk|cbn; lia]. }
  assert (Hs : start_revision (mkWatcher 0 "election/svc/1" 3)
               <= store_revision (store behind_one) + 1)
    by (vm_compute; discriminate).
  destruct (last_predecessor_gone_elects behind_one 0 2 0
              (mkWatcher 0 "election/svc/1" 3) "election/svc/1"
              (mkKeyValue "election/svc/1" "x" 2 (Some 1))
              eq_refl eq_refl eq_refl Hs eq_refl Hrest eq_refl)
    as (H1 & H2 & _).
  split; [exact H1|exact H2].
Defined.

(** ** Lease ids below zero *)

(** X14.  The round trip of the key codec holds for every integer lease
    id: the part of the key after the prefix reads back as the lease id,
    and it starts with a minus sign exactly for the negative ones. *)
Theorem getKey_roundtrip_all_integers :
  forall (e : Election) (leaseId : Z),
    BigNumber.parse16 (hexSegment e (getKey e leaseId)) = leaseId
    /\ is_minus (hexSegment e (getKey e leaseId)) = Z.ltb leaseId 0.
Proof.
  intros e leaseId. rewrite hexSegment_getKey.
  split; [apply parse16_toString16|].
  destruct leaseId as [|p|p]; cbn; try reflexivity.
  now apply of_pos_not_minus.
Qed.

(** ** After a failed proclaim; campaign and resign together *)

Lemma resign_commit (key : string) (rev : Z) (s : Store) :
  commit (resign_txn key rev) s
  = if Z.eqb (create_revision_of key s) rev
    then (delete key s,
          mkTxnResponse true (mkHeader (store_revision (delete key s)))
            [DeleteResponse (match lookup key s with
                             | Some _ => 1
                             | None => 0
                             end)])
    else (s, mkTxnResponse false (mkHeader (store_revision s)) []).
Proof.
  unfold commit, resign_txn. cbn [if_key if_create_eq then_op else_op].
  now destruct (Z.eqb (create_revision_of key s) rev).
Qed.

(** A call of [resign()] with the lease id set, up to the end of its
    callback. *)
Lemma resign_run (w : World) (leaseId : Z) (key : string) (rev : Z) :
  leaderLeaseId (election w) = LeaseOf leaseId ->
  leaderKey (election w) = Some key ->
  leaderRevision (election w) = Some rev ->
  let j := List.length (tasks w) in
  let w3 := exec [CallResign; Resume j; Resume j] w in
  task j w3 = Some (ResignDone (Resolved None))
  /\ store w3 = fst (commit (resign_txn key rev) (store w))
  /\ election w3 = mkElection (keyPrefix (election w)) (timeout (election w))
                              (Some "") (Some rev) LeaseNull
  /\ emitted w3 = (emitted w ++ [resigned])%list.
Proof.
  intros Hl Hk Hr j w3. subst w3. cbn [exec].
  remember (step CallResign w) as w1 eqn:E1.
  remember (step (Resume j) w1) as w2 eqn:E2.
  remember (step (Resume j) w2) as w3 eqn:E3.
  set (t := resign_txn key rev).
  assert (Hw1 : w1 = send j (Commit t) (spawn (ResignCommit t) w)).
  { rewrite E1; cbn [step]. unfold resign. now rewrite Hl, Hk, Hr. }
  assert (H1 : task j w1 = Some (ResignCommit t)).
  { rewrite Hw1. apply (spawn_task (ResignCommit t) w). }
  destruct (answer_commit_at t ResignThen j w1 _ H1) as [Ha H2].
  assert (Hw2 : w2 = answer_commit t ResignThen j w1).
  { rewrite E2; cbn [step]. unfold resume. now rewrite H1. }
  rewrite <- Hw2 in Ha, H2.
  assert (Hw3 : w3 = resign_then j (snd (commit t (store w1))) w2).
  { rewrite E3; cbn [step]. unfold resume. now rewrite H2. }
  split.
  { rewrite Hw3. unfold resign_then.
    unfold task, set_task, set_election, emit; cbn [tasks].
    apply nth_error_set_nth_eq. eapply nth_error_lt. exact H2. }
  rewrite Hw3, Ha, Hw1. unfold resign_then. cbn.
  rewrite Hr. repeat split.
Qed.

(** X15.  A proclaim whose condition fails empties [leaderKey] but leaves
    [leaderLeaseId] set.  So the next [proclaim] or [resign] is not
    stopped by the test of the lease id: it sends a commit on the empty
    key, conditioned on the old [leaderRevision]. *)
Theorem failed_proclaim_keeps_lease :
  forall (w : World) (value value' : string) (leaseId : Z) (key : string)
         (rev : Z),
    leaderLeaseId (election w) = LeaseOf leaseId ->
    leaderKey (election w) = Some key ->
    leaderRevision (election w) = Some rev ->
    create_revision_of key (store w) <> rev ->
    let j := List.length (tasks w) in
    let w3 := exec [CallProclaim value; Resume j; Resume j] w in
    task j w3 = Some (ProclaimDone (Rejected EtcdElectionNotLeaderError))
    /\ leaderKey (election w3) = Some ""
    /\ leaderLeaseId (election w3) = LeaseOf leaseId
    /\ requests (step (CallProclaim value') w3)
       = (requests w3
          ++ [(S j, Commit (mkTxn "" rev
                              (Some (OpPut "" value' (Some leaseId)))
                              None))])%list
    /\ requests (step CallResign w3)
       = (requests w3
          ++ [(S j, Commit (mkTxn "" rev (Some (OpDelete "")) None))])%list.
Proof.
  intros w value value' leaseId key rev Hl Hk Hr Hne j w3.
  subst w3. cbn [exec].
  remember (step (CallProclaim value) w) as w1 eqn:E1.
  remember (step (Resume j) w1) as w2 eqn:E2.
  remember (step (Resume j) w2) as w3 eqn:E3.
  set (t := proclaim_txn key rev value leaseId).
  assert (Hw1 : w1 = send j (Commit t) (spawn (ProclaimCommit t) w)).
  { rewrite E1; cbn [step]. unfold proclaim. now rewrite Hl, Hk, Hr. }
  assert (H1 : task j w1 = Some (ProclaimCommit t)).
  { rewrite Hw1. apply (spawn_task (ProclaimCommit t) w). }
  destruct (answer_commit_at t ProclaimThen j w1 _ H1) as [Ha H2].
  assert (Hw2 : w2 = answer_commit t ProclaimThen j w1).
  { rewrite E2; cbn [step]. unfold resume. now rewrite H1. }
  rewrite <- Hw2 in Ha, H2.
  assert (Hfail : succeeded (snd (commit t (store w1))) = false).
  { rewrite commit_succeeded. cbn [t proclaim_txn if_key if_create_eq].
    replace (store w1) with (store w) by (rewrite Hw1; reflexivity).
    now apply Z.eqb_neq. }
  assert (Hw3 : w3 = proclaim_then j (snd (commit t (store w1))) w2).
  { rewrite E3; cbn [step]. unfold resume. now rewrite H2. }
  assert (He3 : election w3
                = mkElection (keyPrefix (election w)) (timeout (election w))
                             (Some "") (Some rev) (LeaseOf leaseId)).
  { rewrite Hw3. unfold proclaim_then. rewrite Hfail, Ha, Hw1. cbn.
    now rewrite Hr, Hl. }
  assert (Hn3 : List.length (tasks w3) = S j).
  { rewrite Hw3. unfold proclaim_then. rewrite Hfail, Ha, Hw1.
    unfold set_task, set_election, set_store, send, spawn; cbn [tasks].
    rewrite !length_set_nth, length_app. cbn. lia. }
  split.
  { rewrite Hw3. unfold proclaim_then. rewrite Hfail.
    unfold task, set_task, set_election; cbn [tasks].
    apply nth_error_set_nth_eq. eapply nth_error_lt. exact H2. }
  split; [rewrite He3; reflexivity|].
  split; [rewrite He3; reflexivity|].
  cbn [step]. unfold proclaim, resign. rewrite He3, Hn3. cbn.
  split; reflexivity.
Qed.

Lemma failed_proclaim_keeps_lease_witness :
  leaderLeaseId
    (election (exec [CallProclaim "z"; Resume (List.length (tasks deposed));
                     Resume (List.length (tasks deposed))] deposed))
  = LeaseOf 2
  /\ requests
       (step (CallProclaim "again")
          (exec [CallProclaim "z"; Resume (List.length (tasks deposed));
                 Resume (List.length (tasks deposed))] deposed))
     = (requests
          (exec [CallProclaim "z"; Resume (List.length (tasks deposed));
                 Resume (List.length (tasks deposed))] deposed)
        ++ [(S (List.length (tasks deposed)),
             Commit (mkTxn "" 3 (Some (OpPut "" "again" (Some 2))) None))])%list.
Proof.
  assert (Hne : create_revision_of "election/svc/2" (store deposed) <> 3)
    by (vm_compute; discriminate).
  destruct (failed_proclaim_keeps_lease deposed "z" "again" 2
              "election/svc/2" 3 eq_refl eq_refl eq_refl Hne)
    as (_ & _ & H3 & H4 & _).
  split; [exact H3|exact H4].
Defined.

(** X16.  A campaign that created its key and is resigned before it is
    elected leaves nothing behind: the commit of the resign finds the key
    at the recorded revision and deletes it, "resigned" is emitted, and
    [leaderKey] and [leaderLeaseId] are cleared. *)
Theorem campaign_then_resign_removes_key :
  forall (w : World) (i : nat) (value : string) (leaseId : Z),
    task i w = Some (CampaignGrant value) ->
    lookup (getKey (election w) leaseId) (store w) = None ->
    let key := getKey (election w) leaseId in
    let j := List.length (tasks w) in
    let w' := exec [Granted i leaseId; Resume i; Resume i;
                    CallResign; Resume j; Resume j] w in
    lookup key (store w') = None
    /\ task j w' = Some (ResignDone (Resolved None))
    /\ emitted w' = (emitted w ++ [resigned])%list
    /\ leaderKey (election w') = Some ""
    /\ leaderLeaseId (election w') = LeaseNull.
Proof.
  intros w i value leaseId Hi Hl key j w'.
  fold key in Hl.
  set (rev := store_revision (store w) + 1).
  set (kv := mkKeyValue key value rev (Some leaseId)).
  set (s' := mkStore (kvs (store w) ++ [kv]) rev (deleted (store w))).
  set (res := mkTxnResponse true (mkHeader rev) [PutResponse]).
  set (t := campaign_txn key value leaseId).
  assert (Hcm : commit t (store w) = (s', res))
    by apply (create_commit key value leaseId (store w) Hl).
  subst w'.
  change (exec [Granted i leaseId; Resume i; Resume i;
                CallResign; Resume j; Resume j] w)
    with (exec [CallResign; Resume j; Resume j]
               (step (Resume i) (step (Resume i) (step (Granted i leaseId) w)))).
  remember (step (Granted i leaseId) w) as w1 eqn:E1.
  remember (step (Resume i) w1) as w2 eqn:E2.
  remember (step (Resume i) w2) as w3 eqn:E3.
  assert (Hw1 : w1 = set_task i (CampaignCommit key value leaseId t)
                              (send i (Commit t) w)).
  { rewrite E1; cbn [step]. unfold granted. now rewrite Hi. }
  assert (H1 : task i w1 = Some (CampaignCommit key value leaseId t)).
  { rewrite Hw1. now apply (resume_at w i _ Hi). }
  assert (Hw2 : w2 = set_task i (CampaignThen key value leaseId res)
                              (set_store s' w1)).
  { rewrite E2; cbn [step]. unfold resume. rewrite H1.
    rewrite (proj1 (answer_commit_at t _ i w1 _ H1)).
    replace (store w1) with (store w) by (rewrite Hw1; reflexivity).
    now rewrite Hcm. }
  assert (H2 : task i w2 = Some (CampaignThen key value leaseId res)).
  { rewrite Hw2. now apply (resume_at w1 i _ H1). }
  assert (Hw3 : w3 = campaign_then i key leaseId res w2).
  { rewrite E3; cbn [step]. unfold resume. now rewrite H2. }
  assert (He3 : election w3
                = mkElection (keyPrefix (election w)) (timeout (election w))
                             (Some key) (Some rev) (LeaseOf leaseId)).
  { rewrite Hw3, Hw2, Hw1. reflexivity. }
  assert (Hs3 : store w3 = s') by (rewrite Hw3, Hw2; reflexivity).
  assert (Hm3 : emitted w3 = emitted w)
    by (rewrite Hw3, Hw2, Hw1; reflexivity).
  assert (Hn3 : List.length (tasks w3) = j).
  { rewrite Hw3, Hw2, Hw1.
    unfold campaign_then, waitDeletes, set_task, set_store, send,
      set_election; cbn [tasks].
    now rewrite !length_set_nth. }
  assert (Hfind : lookup key s' = Some kv).
  { unfold lookup in *. cbn [kvs s']. rewrite find_app, Hl.
    cbn. unfold has_key. cbn [Etcd.key kv]. now rewrite String.eqb_refl. }
  destruct (resign_run w3 leaseId key rev) as (R1 & R2 & R3 & R4);
    try (rewrite He3; reflexivity).
  rewrite Hn3 in R1, R2, R3, R4.
  rewrite R2, R3, R4, Hs3, Hm3, resign_commit.
  unfold create_revision_of. rewrite Hfind. cbn [create_revision kv].
  rewrite Z.eqb_refl. cbn [fst].
  split; [apply lookup_delete_same|]. now repeat split.
Qed.

Lemma campaign_then_resign_removes_key_witness :
  lookup (getKey (election granting) 2)
         (store (exec [Granted 0 2; Resume 0; Resume 0; CallResign;
                       Resume (List.length (tasks granting));
                       Resume (List.length (tasks granting))] granting))
  = None
  /\ emitted (exec [Granted 0 2; Resume 0; Resume 0; CallResign;
                    Resume (List.length (tasks granting));
                    Resume (List.length (tasks granting))] granting)
     = (emitted granting ++ [resigned])%list.
Proof.
  destruct (campaign_then_resign_removes_key granting 0 "y" 2
              eq_refl eq_refl) as (H1 & _ & H3 & _).
  split; [exact H1|exact H3].
Defined.

(** X17.  When the campaign committed while its key existed and something
    had been written after the key was created, the revision recorded is
    not the creation revision of the key, so a [resign] that follows
    deletes nothing: the store is as before, key included, while the
    instance emits "resigned" and clears [leaderKey] and
    [leaderLeaseId]. *)
Theorem reentrant_resign_leaves_key :
  forall (w : World) (i : nat) (value : string) (leaseId : Z) (kv : KeyValue),
    let key := getKey (election w) leaseId in
    task i w = Some (CampaignCommit key value leaseId
                                    (campaign_txn key value leaseId)) ->
    store_wf (store w) ->
    lookup key (store w) = Some kv ->
    create_revision kv < store_revision (store w) ->
    let j := List.length (tasks w) in
    let w' := exec [Resume i; Resume i; CallResign; Resume j; Resume j] w in
    task j w' = Some (ResignDone (Resolved None))
    /\ store w' = store w
    /\ lookup key (store w') = Some kv
    /\ emitted w' = (emitted w ++ [resigned])%list
    /\ leaderKey (election w') = Some ""
    /\ leaderLeaseId (election w') = LeaseNull.
Proof.
  intros w i value leaseId kv key Hi Hwf Hl Hlt j w'.
  destruct (lookup_In _ _ _ Hl) as [Hin _].
  destruct Hwf as [_ Hwf]. specialize (Hwf kv Hin).
  assert (Hc : create_revision kv <> 0) by lia.
  set (rev := store_revision (store w)) in *.
  set (res := mkTxnResponse false (mkHeader rev) [RangeResponseOf [kv]]).
  set (t := campaign_txn key value leaseId) in *.
  subst w'.
  change (exec [Resume i; Resume i; CallResign; Resume j; Resume j] w)
    with (exec [CallResign; Resume j; Resume j]
               (step (Resume i) (step (Resume i) w))).
  remember (step (Resume i) w) as w1 eqn:E1.
  remember (step (Resume i) w1) as w2 eqn:E2.
  assert (Hw1 : w1 = set_task i (CampaignThen key value leaseId res)
                              (set_store (store w) w)).
  { rewrite E1; cbn [step]. unfold resume. rewrite Hi.
    rewrite (proj1 (answer_commit_at t _ i w _ Hi)).
    unfold t. now rewrite (reentrant_commit key value leaseId (store w) kv Hl Hc). }
  assert (H1 : task i w1 = Some (CampaignThen key value leaseId res)).
  { rewrite Hw1. now apply (resume_at w i _ Hi). }
  assert (Hw2 : w2 = campaign_then i key leaseId res w1).
  { rewrite E2; cbn [step]. unfold resume. now rewrite H1. }
  assert (He2 : election w2
                = mkElection (keyPrefix (election w)) (timeout (election w))
                             (Some key) (Some rev) (LeaseOf leaseId)).
  { rewrite Hw2, Hw1. reflexivity. }
  assert (Hs2 : store w2 = store w) by (rewrite Hw2, Hw1; reflexivity).
  assert (Hm2 : emitted w2 = emitted w) by (rewrite Hw2, Hw1; reflexivity).
  assert (Hn2 : List.length (tasks w2) = j).
  { rewrite Hw2, Hw1.
    unfold campaign_then, waitDeletes, set_task, set_store, send,
      set_election; cbn [tasks].
    now rewrite !length_set_nth. }
  destruct (resign_run w2 leaseId key rev) as (R1 & R2 & R3 & R4);
    try (rewrite He2; reflexivity).
  rewrite Hn2 in R1, R2, R3, R4.
  rewrite R2, R3, R4, Hs2, Hm2, resign_commit.
  unfold create_revision_of. rewrite Hl.
  replace (Z.eqb (create_revision kv) rev) with false
    by (symmetry; apply Z.eqb_neq; lia).
  cbn [fst]. now repeat split.
Qed.

Lemma reentrant_resign_leaves_key_witness :
  store (exec [Resume 0; Resume 0; CallResign;
               Resume (List.length (tasks reentrant));
               Resume (List.length (tasks reentrant))] reentrant)
  = store reentrant
  /\ leaderLeaseId
       (election (exec [Resume 0; Resume 0; CallResign;
                        Resume (List.length (tasks reentrant));
                        Resume (List.length (tasks reentrant))] reentrant))
     = LeaseNull.
Proof.
  assert (Hwf : store_wf (store reentrant))
    by (apply store_wf_exec, store_wf_empty).
  assert (Hlt : create_revision (mkKeyValue "election/svc/2" "old" 2 (Some 2))
                < store_revision (store reentrant))
    by (vm_compute; reflexivity).
  destruct (reentrant_resign_leaves_key reentrant 0 "y" 2
              (mkKeyValue "election/svc/2" "old" 2 (Some 2))
              eq_refl Hwf eq_refl Hlt) as (_ & H2 & _ & _ & _ & H6).
  split; [exact H2|exact H6].
Defined.
